(** * ethereal: wallet location, account resolution and the
    "transaction up" / "contract send" commands

    A shallow embedding of [cli/wallet.go], [cmd/transactionup.go] and
    [cmd/contractsend.go].  Go's [*big.Int] is [Z]; [uint64] and [int64]
    are [Z] with their wrap-around written out; [[]byte] is [list byte];
    a Go result pair [(T, error)] is a [result T]; the process-level
    effects of a command (standard output, calls to the node and to the
    wallets, [os.Exit]) are threaded through a small monad [M]. *)

From Stdlib Require Import ZArith List String Ascii Bool Lia.
From Stdlib.Strings Require Import Byte.
From Stdlib Require Import DecimalString.
Import ListNotations.

Local Open Scope string_scope.
Local Open Scope Z_scope.

(** ** Go values *)

(** Go's [error] values are only ever compared against [nil] and printed,
    so an error is the message it carries. *)
Definition error := string.

(** The outcome of a Go function returning [(T, error)] that may also
    panic. *)
Inductive result (A : Type) : Type :=
| Ok (a : A)
| Err (e : error)
| Panic (msg : string).
Arguments Ok {A} a.
Arguments Err {A} e.
Arguments Panic {A} msg.

Definition result_bind {A B} (r : result A) (k : A -> result B) : result B :=
  match r with
  | Ok a => k a
  | Err e => Err e
  | Panic m => Panic m
  end.

Declare Scope result_scope.
Delimit Scope result_scope with result.
Notation "x <- c ;; k" := (result_bind c (fun x => k))
  (at level 61, c at next level, right associativity) : result_scope.

(** [common.Address] is a 20-byte array and [common.Hash] a 32-byte array;
    Go's [==] on them is byte-wise equality. *)
Definition Address := list byte.
Definition Hash := list byte.

Definition Address_eqb (a b : Address) : bool :=
  if list_eq_dec byte_eq_dec a b then true else false.

(** [accounts.Account] and the part of [accounts.Wallet] the code reads. *)
Record Account := { acc_Address : Address; acc_URL : string }.

Record Wallet := { wallet_URL : string; Accounts : list Account }.

(** A device reported by the Ledger hub.  [dev_Accounts n] is what
    [Accounts()] reports once the wallet has been opened and [n] pinned
    [Derive] calls have been made on it. *)
Record Device := { dev_URL : string; dev_Accounts : nat -> list Account }.

(** [types.Transaction], through its accessors.  [tx_sig] is empty on an
    unsigned transaction. *)
Record Transaction := {
  tx_Nonce : Z;            (* uint64 *)
  tx_GasPrice : Z;         (* *big.Int *)
  tx_Gas : Z;              (* uint64 *)
  tx_To : option Address;  (* nil for a contract creation *)
  tx_Value : Z;            (* *big.Int *)
  tx_Data : list byte;
  tx_sig : list byte
}.

(** Chain identifiers of go-ethereum's [params] package. *)
Definition MainnetChainID : Z := 1.
Definition TestnetChainID : Z := 3.
Definition RinkebyChainID : Z := 4.
Definition GoerliChainID : Z := 5.

(** [x.Cmp(y) == 0] on [*big.Int]. *)
Definition Cmp (x y : Z) : Z :=
  match x ?= y with Lt => -1 | Eq => 0 | Gt => 1 end.

(** ** The host the process runs on *)

Record Host := {
  GOOS : string;                                   (* runtime.GOOS *)
  env_HOME : string;                               (* os.Getenv("HOME") *)
  env_LOCALAPPDATA : string;                       (* os.Getenv("LOCALAPPDATA") *)
  user_Current : option string;                    (* user.Current(): HomeDir, or an error *)
  homedir_Dir : error + string;                    (* go-homedir's Dir() *)
  readdir : string -> option (list string);        (* os.Open then Readdir; None when Open fails *)
  keystore : string -> list Wallet;                (* wallets of keystore.NewKeyStore(dir); none for a missing dir *)
  usbwallet_NewLedgerHub : error + list Device;    (* usbwallet.NewLedgerHub() *)
  viper_usbwallets : Z;                            (* viper.GetInt("usbwallets") *)
  viper_passphrase : string;                       (* viper.GetString("passphrase") *)
  Address_Hex : Address -> string;                 (* address.Hex() *)
  (* wallet.SignDataWithPassphrase(account, passphrase, mimeType, data) *)
  SignDataWithPassphrase :
    Wallet -> Account -> string -> string -> list byte -> error + list byte;
  (* the wallet's signature over an unsigned transaction *)
  SignTx : Wallet -> Account -> string -> Transaction -> error + list byte
}.

(** ** [path/filepath] *)

Definition Separator (goos : string) : string :=
  if (goos =? "windows")%string then "\" else "/".

(** [filepath.Join]: the non-empty elements joined by the separator.  The
    result of Go's [Join] is also passed through [Clean]; the elements
    this program joins are literal clean relative paths and a home or
    data directory, on which [Clean] changes nothing. *)
Definition filepath_Join (goos : string) (elem : list string) : string :=
  String.concat (Separator goos)
    (filter (fun e => negb (e =? "")%string) elem).

(** ** Fixed-width integers and [encoding/hex] *)

(** The conversions [int64(u)] and [uint64(i)]. *)
Definition int64 (u : Z) : Z :=
  let m := u mod 2 ^ 64 in
  if m <? 2 ^ 63 then m else m - 2 ^ 64.

Definition uint64 (i : Z) : Z := i mod 2 ^ 64.

(** [big.Int.Div] is Euclidean division (the remainder is never
    negative); it panics on a zero divisor, which the one call in this
    program (divisor 10) never passes. *)
Definition big_Div (x y : Z) : Z := Z.sgn y * (x / Z.abs y).

Definition hextable : string := "0123456789abcdef".

Definition hexdigit (n : N) : ascii :=
  match String.get (N.to_nat n) hextable with
  | Some c => c
  | None => "0"%char
  end.

(** [hex.EncodeToString]: two digits per byte, high nibble first. *)
Fixpoint hex_EncodeToString (src : list byte) : string :=
  match src with
  | [] => ""
  | v :: rest =>
      String (hexdigit (N.shiftr (to_N v) 4))
        (String (hexdigit (N.land (to_N v) 15)) (hex_EncodeToString rest))
  end.

Definition newline : string := String (ascii_of_nat 10) EmptyString.

(** ** The process: events, package-level variables, termination *)

(** What a run does that the outside can see: lines the code itself
    writes to standard output, and its calls into the wallets, the node
    and helpers defined outside these files. *)
Inductive Event :=
| Printf (s : string)
| SignDataWithPassphrase_call (w : Wallet) (a : Account)
    (passphrase mimeType : string) (data : list byte)
| TransactionByHash_call (hash : Hash)
| SignTx_call (w : Wallet) (a : Account) (tx : Transaction)
| SendTransaction_call (tx : Transaction)
| outputIf_call (condition : bool) (msg : string)
| handleSubmittedTransaction_call (tx : Transaction)
    (fields : list (string * string)) (wait : bool).

(** The events so far and the two package-level variables of [cmd] that
    the commands assign: [gasPrice] ([*big.Int], [None] is the nil
    pointer) and [nonce] ([int64]; [None] is a nonce that was not
    overridden). *)
Record State := {
  trace : list Event;
  gasPrice : option Z;
  nonce : option Z
}.

(** How a computation ends: with a value, through [os.Exit], through a
    failed [cli.Assert] or [cli.ErrCheck], or in a panic. *)
Inductive Res (A : Type) : Type :=
| Ret (a : A)
| Exit (code : Z)
| Fatal (msg : string)
| Crash (msg : string).
Arguments Ret {A} a.
Arguments Exit {A} code.
Arguments Fatal {A} msg.
Arguments Crash {A} msg.

Definition M (A : Type) : Type := State -> Res A * State.

Definition ret {A} (a : A) : M A := fun s => (Ret a, s).

Definition bind {A B} (m : M A) (k : A -> M B) : M B :=
  fun s =>
    match m s with
    | (Ret a, s') => k a s'
    | (Exit code, s') => (Exit code, s')
    | (Fatal msg, s') => (Fatal msg, s')
    | (Crash msg, s') => (Crash msg, s')
    end.

Declare Scope go_scope.
Delimit Scope go_scope with go.
Notation "x <- c ;; k" := (bind c (fun x => k))
  (at level 61, c at next level, right associativity) : go_scope.
Notation "c ;; k" := (bind c (fun _ => k))
  (at level 61, right associativity) : go_scope.

Definition emit (e : Event) : M unit :=
  fun s => (Ret tt, {| trace := (trace s ++ [e])%list;
                       gasPrice := gasPrice s; nonce := nonce s |}).

Definition get : M State := fun s => (Ret s, s).

Definition set_gasPrice (p : Z) : M unit :=
  fun s => (Ret tt, {| trace := trace s; gasPrice := Some p; nonce := nonce s |}).

Definition set_nonce (n : Z) : M unit :=
  fun s => (Ret tt, {| trace := trace s; gasPrice := gasPrice s; nonce := Some n |}).

Definition os_Exit {A} (code : Z) : M A := fun s => (Exit code, s).

Definition panic {A} (msg : string) : M A := fun s => (Crash msg, s).

(** A pure [result] inside the process: a panic ends the run. *)
Definition lift {A} (r : result A) : M (error + A) :=
  match r with
  | Ok a => ret (inr a)
  | Err e => ret (inl e)
  | Panic msg => panic msg
  end.

(** The exit status the operating system sees. *)
Definition exit_status {A} (r : Res A) : option Z :=
  match r with
  | Ret _ => None
  | Exit code => Some code
  | Fatal _ => Some 1
  | Crash _ => Some 2
  end.

(** The lines written to standard output. *)
Fixpoint stdout (events : list Event) : list string :=
  match events with
  | [] => []
  | Printf s :: rest => s :: stdout rest
  | _ :: rest => stdout rest
  end.

(** The transactions handed to the node for broadcast. *)
Fixpoint broadcasts (events : list Event) : list Transaction :=
  match events with
  | [] => []
  | SendTransaction_call tx :: rest => tx :: broadcasts rest
  | _ :: rest => broadcasts rest
  end.

(** The signature requests made to verify a passphrase. *)
Fixpoint verifications (events : list Event) : list Event :=
  match events with
  | [] => []
  | SignDataWithPassphrase_call w a p m d :: rest =>
      SignDataWithPassphrase_call w a p m d :: verifications rest
  | _ :: rest => verifications rest
  end.

(** The unsigned transactions handed to a wallet for signing, with the
    account asked to sign. *)
Fixpoint signing_requests (events : list Event) : list (Account * Transaction) :=
  match events with
  | [] => []
  | SignTx_call _ a tx :: rest => (a, tx) :: signing_requests rest
  | _ :: rest => signing_requests rest
  end.

Module cli.

(** *** wallet.go, lines 230-286 *)

Definition homeDir (h : Host) : string :=
  if negb (env_HOME h =? "")%string then env_HOME h
  else match user_Current h with
       | Some dir => dir
       | None => ""
       end.

Definition windowsAppData (h : Host) : result string :=
  let v := env_LOCALAPPDATA h in
  if (v =? "")%string
  then Panic "environment variable LocalAppData is undefined"
  else Ok v.

Definition isNonEmptyDir (h : Host) (dir : string) : bool :=
  match readdir h dir with
  | None => false
  | Some entries => (0 <? Z.of_nat (List.length (firstn 1 entries)))
  end.

Definition DefaultDataDir (h : Host) : result string :=
  let home := homeDir h in
  if negb (home =? "")%string then
    if (GOOS h =? "darwin")%string then
      Ok (filepath_Join (GOOS h) [home; "Library"; "Ethereum"])
    else if (GOOS h =? "windows")%string then
      let fallback := filepath_Join (GOOS h) [home; "AppData"; "Roaming"; "Ethereum"] in
      (appdata <- windowsAppData h ;;
       if (appdata =? "")%string || isNonEmptyDir h fallback
       then Ok fallback
       else Ok (filepath_Join (GOOS h) [appdata; "Ethereum"]))%result
    else
      Ok (filepath_Join (GOOS h) [home; ".ethereum"])
  else Ok "".

(** *** [accounts.Manager] over one backend *)

Definition ErrUnknownAccount : error := "unknown account".

Definition Contains (w : Wallet) (address : Address) : bool :=
  existsb (fun a => Address_eqb (acc_Address a) address) (Accounts w).

(** [accountManager.Find(accounts.Account{Address: address})]: the first
    wallet that contains the address. *)
Definition Find (wallets : list Wallet) (address : Address) : result Wallet :=
  match find (fun w => Contains w address) wallets with
  | Some w => Ok w
  | None => Err ErrUnknownAccount
  end.

(** *** wallet.go, lines 85-129: geth keystores *)

(** The chained conditional of [obtainGethWallet], lines 87-99: the path
    element joined to the data directory, if any. *)
Definition obtainGethWallet_subdir (chainID : Z) : option string :=
  if Cmp chainID MainnetChainID =? 0 then None
  else if Cmp chainID TestnetChainID =? 0 then Some "testnet"
  else if Cmp chainID RinkebyChainID =? 0 then Some "rinkeby"
  else if Cmp chainID GoerliChainID =? 0 then Some "goerli"
  else if Cmp chainID GoerliChainID =? 0 then Some "volta"
  else if Cmp chainID GoerliChainID =? 0 then Some "energyweb"
  else None.

Definition obtainGethWallet_keydir (h : Host) (chainID : Z) : result string :=
  (keydir <- DefaultDataDir h ;;
   let keydir :=
     match obtainGethWallet_subdir chainID with
     | Some d => filepath_Join (GOOS h) [keydir; d]
     | None => keydir
     end in
   Ok (filepath_Join (GOOS h) [keydir; "keystore"]))%result.

Definition obtainGethWallet (h : Host) (chainID : Z) (address : Address)
  : result Wallet :=
  (keydir <- obtainGethWallet_keydir h chainID ;;
   Find (keystore h keydir) address)%result.

(** The chained conditional of [obtainGethWallets], lines 111-123. *)
Definition obtainGethWallets_subdir (chainID : Z) : option string :=
  if Cmp chainID MainnetChainID =? 0 then None
  else if Cmp chainID TestnetChainID =? 0 then Some "testnet"
  else if Cmp chainID RinkebyChainID =? 0 then Some "rinkeby"
  else if Cmp chainID GoerliChainID =? 0 then Some "goerli"
  else if Cmp chainID GoerliChainID =? 0 then Some "volta"
  else if Cmp chainID GoerliChainID =? 0 then Some "energyweb"
  else None.

Definition obtainGethWallets_keydir (h : Host) (chainID : Z) : result string :=
  (keydir <- DefaultDataDir h ;;
   let keydir :=
     match obtainGethWallets_subdir chainID with
     | Some d => filepath_Join (GOOS h) [keydir; d]
     | None => keydir
     end in
   Ok (filepath_Join (GOOS h) [keydir; "keystore"]))%result.

Definition obtainGethWallets (h : Host) (chainID : Z) : result (list Wallet) :=
  (keydir <- obtainGethWallets_keydir h chainID ;;
   Ok (keystore h keydir))%result.

(** *** wallet.go, lines 131-185: Parity keystores *)

(** Lines 136-144: the operating-system branch. *)
Definition obtainParityWallet_osdir (h : Host) (keydir : string) : result string :=
  if (GOOS h =? "windows")%string then
    Ok (filepath_Join (GOOS h) [keydir; "AppData\Roaming\Parity\Ethereum\keys"])
  else if (GOOS h =? "darwin")%string then
    Ok (filepath_Join (GOOS h) [keydir; "Library/Application Support/io.parity.ethereum/keys"])
  else if (GOOS h =? "linux")%string then
    Ok (filepath_Join (GOOS h) [keydir; ".local/share/io.parity.ethereum/keys"])
  else Err "Unsupported operating system".

(** Lines 146-150: the chain branch. *)
Definition obtainParityWallet_subdir (chainID : Z) : option string :=
  if Cmp chainID MainnetChainID =? 0 then Some "ethereum"
  else if Cmp chainID TestnetChainID =? 0 then Some "test"
  else None.

Definition obtainParityWallet_keydir (h : Host) (chainID : Z) : result string :=
  match homedir_Dir h with
  | inl _ => Err "Failed to find home directory"
  | inr keydir =>
      (keydir <- obtainParityWallet_osdir h keydir ;;
       Ok (match obtainParityWallet_subdir chainID with
           | Some d => filepath_Join (GOOS h) [keydir; d]
           | None => keydir
           end))%result
  end.

Definition obtainParityWallet (h : Host) (chainID : Z) (address : Address)
  : result Wallet :=
  (keydir <- obtainParityWallet_keydir h chainID ;;
   Find (keystore h keydir) address)%result.

(** Lines 165-173 and 175-179, the same two branches in
    [obtainParityWallets]. *)
Definition obtainParityWallets_osdir (h : Host) (keydir : string) : result string :=
  if (GOOS h =? "windows")%string then
    Ok (filepath_Join (GOOS h) [keydir; "AppData\Roaming\Parity\Ethereum\keys"])
  else if (GOOS h =? "darwin")%string then
    Ok (filepath_Join (GOOS h) [keydir; "Library/Application Support/io.parity.ethereum/keys"])
  else if (GOOS h =? "linux")%string then
    Ok (filepath_Join (GOOS h) [keydir; ".local/share/io.parity.ethereum/keys"])
  else Err "Unsupported operating system".

Definition obtainParityWallets_subdir (chainID : Z) : option string :=
  if Cmp chainID MainnetChainID =? 0 then Some "ethereum"
  else if Cmp chainID TestnetChainID =? 0 then Some "test"
  else None.

Definition obtainParityWallets_keydir (h : Host) (chainID : Z) : result string :=
  match homedir_Dir h with
  | inl _ => Err "Failed to find home directory"
  | inr keydir =>
      (keydir <- obtainParityWallets_osdir h keydir ;;
       Ok (match obtainParityWallets_subdir chainID with
           | Some d => filepath_Join (GOOS h) [keydir; d]
           | None => keydir
           end))%result
  end.

Definition obtainParityWallets (h : Host) (chainID : Z) : result (list Wallet) :=
  (keydir <- obtainParityWallets_keydir h chainID ;;
   Ok (keystore h keydir))%result.

(** *** wallet.go, lines 187-208: the Ledger hub *)

(** The inner loop [for i := 0; i < usbWallets; i++]: [fuel] iterations
    remain and [derived] pinned [Derive] calls have been made. *)
Fixpoint derive_loop (fuel : nat) (derived : nat) : nat :=
  match fuel with
  | O => derived
  | S fuel' => derive_loop fuel' (S derived)
  end.

Definition obtainLedgerWallets (h : Host) (chainID : Z) : result (list Wallet) :=
  match usbwallet_NewLedgerHub h with
  | inl err => Err err
  | inr devices =>
      let usbWallets := viper_usbwallets h in
      Ok (map (fun d =>
                 {| wallet_URL := dev_URL d;
                    Accounts := dev_Accounts d (derive_loop (Z.to_nat usbWallets) 0) |})
              devices)
  end.

(** *** wallet.go, lines 35-83 *)

Definition ObtainWallets (h : Host) (chainID : Z) : result (list Wallet) :=
  (let wallets : list Wallet := [] in
   gethWallets <- obtainGethWallets h chainID ;;
   let wallets := (wallets ++ gethWallets)%list in
   parityWallets <- obtainParityWallets h chainID ;;
   let wallets := (wallets ++ parityWallets)%list in
   ledgerWallets <- obtainLedgerWallets h chainID ;;
   let wallets := (wallets ++ ledgerWallets)%list in
   Ok wallets)%result.

Definition ObtainWallet (h : Host) (chainID : Z) (address : Address)
  : result Wallet :=
  match obtainGethWallet h chainID address with
  | Ok wallet => Ok wallet
  | Panic m => Panic m
  | Err _ =>
      match obtainParityWallet h chainID address with
      | Ok wallet => Ok wallet
      | Panic m => Panic m
      | Err _ => Err ("failed to obtain wallet for " ++ Address_Hex h address)
      end
  end.

(** *** wallet.go, lines 210-228 *)

Definition VerifyPassphrase_data : list byte := repeat x00 32.

Definition VerifyPassphrase (h : Host) (wallet : Wallet) (account : Account)
    (passphrase : string) : M bool :=
  (emit (SignDataWithPassphrase_call wallet account passphrase
           "application/octet-stream" VerifyPassphrase_data) ;;
   match SignDataWithPassphrase h wallet account passphrase
           "application/octet-stream" VerifyPassphrase_data with
   | inl _ => ret false
   | inr _ => ret true
   end)%go.

(** The loop of [ObtainAccount] over the accounts of the wallet. *)
Fixpoint ObtainAccount_loop (h : Host) (wallet : Wallet) (accounts : list Account)
    (address : Address) (passphrase : string) : M (error + Account) :=
  match accounts with
  | [] => ret (inl "account not found")
  | account :: rest =>
      if Address_eqb address (acc_Address account) then
        (bad <- (if negb (passphrase =? "")%string
                 then (ok <- VerifyPassphrase h wallet account passphrase ;;
                       ret (negb ok))
                 else ret false) ;;
         if (bad : bool) then
           emit (Printf ("Verifying passphrase" ++ newline)) ;;
           ret (inl "invalid passphrase")
         else ret (inr account))%go
      else ObtainAccount_loop h wallet rest address passphrase
  end.

Definition ObtainAccount (h : Host) (wallet : Wallet) (address : Address)
    (passphrase : string) : M (error + Account) :=
  ObtainAccount_loop h wallet (Accounts wallet) address passphrase.

(** *** wallet.go, lines 60-68 *)

Definition ObtainWalletAndAccount (h : Host) (chainID : Z) (address : Address)
  : M (error + Wallet * Account) :=
  (r <- lift (ObtainWallet h chainID address) ;;
   match r with
   | inl err => ret (inl err)
   | inr wallet =>
       r <- ObtainAccount h wallet address (viper_passphrase h) ;;
       match r with
       | inl err => ret (inl err)
       | inr account => ret (inr (wallet, account))
       end
   end)%go.

End cli.

Module cmd.

(** The part of [util.Contract] and of [abi.Method] the code reads. *)
Record Contract := { contract_Name : string; contract_Abi : string }.
Record Method := { method_Name : string }.

(** The node behind [client] and the helpers and libraries the two
    commands call that are defined outside these files. *)
Record Client := {
  chainID : Z;
  HexToHash : string -> Hash;                          (* common.HexToHash *)
  Hash_Hex : Hash -> string;                           (* txHash.Hex() *)
  big_String : Z -> string;                            (* x.String() on a big.Int *)
  WeiToString : Z -> bool -> string;                   (* string2eth.WeiToString *)
  StringToWei : string -> error + Z;                   (* string2eth.StringToWei *)
  TransactionByHash : Hash -> error + Transaction * bool;
  SendTransaction : Transaction -> error + unit;
  SuggestGasPrice : Z;
  PendingNonceAt : Address -> Z;
  EncodeRLP : Transaction -> list byte;                (* signedTx.EncodeRLP(buf); buf.Bytes() *)
  txFrom : Transaction -> error + Address;
  ens_Resolve : string -> error + Address;
  parseContract : string -> Res Contract;
  ParseCall : Contract -> string -> error + Method * list string;
  Abi_Pack : Contract -> string -> list string -> error + list byte;
  handleSubmittedTransaction :
    Transaction -> list (string * string) -> bool -> Res unit
}.

(** The flags of an invocation, which the commands only read. *)
Record Flags := {
  quiet : bool;
  verbose : bool;
  offline : bool;
  gasLimit : Z;                       (* uint64 *)
  viper_gasprice : string;            (* viper.GetString("gasprice") *)
  transactionStr : string;
  contractStr : string;
  contractSendAmount : string;
  contractSendFromAddress : string;
  contractSendCall : string
}.

(** Modelled from the spec: the constant [_exit_success] is declared
    outside these files; section 6 gives exit code 0 to a successful
    submission and to a successful offline serialization. *)
Definition _exit_success : Z := 0.

(** Modelled from the spec: [cli.Assert] is declared outside these files.
    Section 7: a failed validation is fatal and ends the process with
    exit code 1 (the [Fatal] outcome), before any later step runs. *)
Definition Assert (condition : bool) (quiet : bool) (msg : string) : M unit :=
  if condition then ret tt else fun s => (Fatal msg, s).

(** Modelled from the spec: [cli.ErrCheck] is declared outside these
    files.  [x, err := f(); cli.ErrCheck(err, quiet, msg)] ends the
    process with exit code 1 when [err] is not nil (section 7) and goes
    on with [x] otherwise. *)
Definition ErrCheck {A} (r : error + A) (quiet : bool) (msg : string) : M A :=
  match r with
  | inl _ => fun s => (Fatal msg, s)
  | inr a => ret a
  end.

(** A helper defined outside these files whose outcome the environment
    decides: it may return or end the process. *)
Definition external {A} (r : Res A) : M A := fun s => (r, s).

Definition with_sig (tx : Transaction) (sig : list byte) : Transaction :=
  {| tx_Nonce := tx_Nonce tx; tx_GasPrice := tx_GasPrice tx; tx_Gas := tx_Gas tx;
     tx_To := tx_To tx; tx_Value := tx_Value tx; tx_Data := tx_Data tx;
     tx_sig := sig |}.

(** Modelled from the spec: [createSignedTransaction] is declared outside
    these files.  Sections 2 and 4.2-4.4: the wallet and account owning
    [fromAddress] are resolved ([cli.ObtainWalletAndAccount] of
    wallet.go); the unsigned transaction takes the explicit gas price, or
    the network-suggested one when none is set, and the overriding nonce,
    or the next pending nonce of [fromAddress] when it is not overridden;
    the owning wallet signs it, giving a new value that carries the
    original fields plus the signature. *)
Definition createSignedTransaction (h : Host) (c : Client)
    (fromAddress : Address) (toAddress : option Address) (amount : Z)
    (gasLimit : Z) (data : list byte) : M (error + Transaction) :=
  (r <- cli.ObtainWalletAndAccount h (chainID c) fromAddress ;;
   match r with
   | inl err => ret (inl err)
   | inr (wallet, account) =>
       s <- get ;;
       let tx :=
         {| tx_Nonce := match nonce s with
                        | Some n => uint64 n
                        | None => PendingNonceAt c fromAddress
                        end;
            tx_GasPrice := match gasPrice s with
                           | Some p => p
                           | None => SuggestGasPrice c
                           end;
            tx_Gas := gasLimit;
            tx_To := toAddress;
            tx_Value := amount;
            tx_Data := data;
            tx_sig := [] |} in
       emit (SignTx_call wallet account tx) ;;
       match SignTx h wallet account (viper_passphrase h) tx with
       | inl err => ret (inl err)
       | inr sig => ret (inr (with_sig tx sig))
       end
   end)%go.

(** *** transactionup.go, lines 42-86 *)

(** Line 51. *)
Definition minGasPrice (tx : Transaction) : Z :=
  (tx_GasPrice tx + big_Div (tx_GasPrice tx) 10) + 1.

(** Lines 43-66: up to the signed replacement.  The value is the fetched
    transaction with the signed one. *)
Definition transactionUpCmd_sign (h : Host) (c : Client) (f : Flags)
  : M (Transaction * Transaction) :=
  (Assert (negb (transactionStr f =? "")%string) (quiet f)
     "--transaction is required" ;;
   let txHash := HexToHash c (transactionStr f) in
   emit (TransactionByHash_call txHash) ;;
   r <- ErrCheck (TransactionByHash c txHash) (quiet f)
          ("Failed to obtain transaction " ++ Hash_Hex c txHash) ;;
   let '(tx, pending) := r in
   Assert pending (quiet f)
     ("Transaction " ++ Hash_Hex c txHash ++ " has already been mined") ;;

   let minGasPrice := minGasPrice tx in
   (if (viper_gasprice f =? "")%string then
      (* No gas price supplied; use the calculated minimum *)
      set_gasPrice minGasPrice
    else
      (* Gas price supplied; ensure it is over 10% more than the current gas price *)
      s <- get ;;
      match gasPrice s with
      | None => panic "invalid memory address or nil pointer dereference"
      | Some gasPrice =>
          Assert (Cmp gasPrice minGasPrice >? 0) (quiet f)
            ("Gas price must be at least " ++ WeiToString c minGasPrice true)
      end) ;;

   (* Create and sign the transaction *)
   fromAddress <- ErrCheck (txFrom c tx) (quiet f) "Failed to obtain from address" ;;

   set_nonce (int64 (tx_Nonce tx)) ;;
   r <- createSignedTransaction h c fromAddress (tx_To tx) (tx_Value tx)
          (tx_Gas tx) (tx_Data tx) ;;
   signedTx <- ErrCheck r (quiet f) "Failed to create transaction" ;;
   ret (tx, signedTx))%go.

(** Lines 42-86, the whole command: lines 68-85 follow the signing. *)
Definition transactionUpCmd (h : Host) (c : Client) (f : Flags) : M unit :=
  (r <- transactionUpCmd_sign h c f ;;
   let '(tx, signedTx) := r in

   (if offline f then
      (if negb (quiet f) then
         let buf := EncodeRLP c signedTx in
         emit (Printf ("0x" ++ hex_EncodeToString buf ++ newline))
       else ret tt) ;;
      os_Exit _exit_success
    else ret tt) ;;

   emit (SendTransaction_call signedTx) ;;
   ErrCheck (SendTransaction c signedTx) (quiet f) "Failed to send transaction" ;;
   let fields := [("group", "transaction"); ("command", "up");
                  ("oldgasprice", big_String c (tx_GasPrice tx))] in
   emit (handleSubmittedTransaction_call signedTx fields true) ;;
   external (handleSubmittedTransaction c signedTx fields true))%go.

(** *** contractsend.go, lines 48-96 *)

(** Lines 49-76: up to the signed transaction. *)
Definition contractSendCmd_sign (h : Host) (c : Client) (f : Flags)
  : M Transaction :=
  (Assert (negb (contractSendFromAddress f =? "")%string) (quiet f)
     "--from is required" ;;
   fromAddress <- ErrCheck (ens_Resolve c (contractSendFromAddress f)) (quiet f)
                    ("Failed to resolve from address " ++ contractSendFromAddress f) ;;

   (* We need to have 'call' *)
   Assert (negb (contractSendCall f =? "")%string) (quiet f) "--call is required" ;;

   contract <- external (parseContract c "") ;;
   r <- ErrCheck (ParseCall c contract (contractSendCall f)) (quiet f)
          "Failed to parse call" ;;
   let '(method, methodArgs) := r in

   data <- ErrCheck (Abi_Pack c contract (method_Name method) methodArgs) (quiet f)
             "Failed to convert arguments" ;;
   emit (outputIf_call (verbose f) ("Data is " ++ hex_EncodeToString data)) ;;

   Assert (negb (contractStr f =? "")%string) (quiet f) "--contract is required" ;;
   contractAddress <- ErrCheck (ens_Resolve c (contractStr f)) (quiet f)
                        ("Failed to resolve contract address " ++ contractStr f) ;;

   amount <- (if negb (contractSendAmount f =? "")%string
              then ErrCheck (StringToWei c (contractSendAmount f)) (quiet f)
                     ("Invalid amount " ++ contractSendAmount f)
              else ret 0) ;;

   (* Create and sign the transaction *)
   r <- createSignedTransaction h c fromAddress (Some contractAddress) amount
          (gasLimit f) data ;;
   signedTx <- ErrCheck r (quiet f) "Failed to create contract method transaction" ;;
   ret signedTx)%go.

(** Lines 48-96, the whole command: lines 78-95 follow the signing. *)
Definition contractSendCmd (h : Host) (c : Client) (f : Flags) : M unit :=
  (signedTx <- contractSendCmd_sign h c f ;;

   (if offline f then
      (if negb (quiet f) then
         let buf := EncodeRLP c signedTx in
         emit (Printf ("0x" ++ hex_EncodeToString buf ++ newline))
       else ret tt) ;;
      os_Exit _exit_success
    else ret tt) ;;

   emit (SendTransaction_call signedTx) ;;
   ErrCheck (SendTransaction c signedTx) (quiet f)
     "Failed to send contract method transaction" ;;

   let fields := [("group", "contract"); ("command", "send")] in
   emit (handleSubmittedTransaction_call signedTx fields false) ;;
   external (handleSubmittedTransaction c signedTx fields false))%go.

End cmd.

(** * Reference definitions and sample environments *)

(** The chained conditional with its two repeated guards removed. *)
Definition geth_reachable_subdir (chainID : Z) : option string :=
  if Cmp chainID MainnetChainID =? 0 then None
  else if Cmp chainID TestnetChainID =? 0 then Some "testnet"
  else if Cmp chainID RinkebyChainID =? 0 then Some "rinkeby"
  else if Cmp chainID GoerliChainID =? 0 then Some "goerli"
  else None.

Fixpoint string_rev (s : string) : string :=
  match s with
  | EmptyString => EmptyString
  | String ch rest => string_rev rest ++ String ch EmptyString
  end.

(** [strings.HasSuffix]. *)
Definition HasSuffix (s suffix : string) : bool :=
  String.prefix (string_rev suffix) (string_rev s).

(** The host with another hardware hub. *)
Definition with_hub (h : Host) (hub : error + list Device) (usbwallets : Z) : Host :=
  {| GOOS := GOOS h; env_HOME := env_HOME h; env_LOCALAPPDATA := env_LOCALAPPDATA h;
     user_Current := user_Current h; homedir_Dir := homedir_Dir h;
     readdir := readdir h; keystore := keystore h;
     usbwallet_NewLedgerHub := hub; viper_usbwallets := usbwallets;
     viper_passphrase := viper_passphrase h; Address_Hex := Address_Hex h;
     SignDataWithPassphrase := SignDataWithPassphrase h; SignTx := SignTx h |}.

Definition alice : Address := repeat xa1 20.
Definition bob : Address := repeat xb0 20.

Definition alice_account : Account :=
  {| acc_Address := alice; acc_URL := "keystore:///home/alice/.ethereum/keystore/alice" |}.

Definition alice_wallet : Wallet :=
  {| wallet_URL := acc_URL alice_account; Accounts := [alice_account] |}.

Definition bob_account : Account :=
  {| acc_Address := bob; acc_URL := "ledger://0001:0002:00" |}.

Definition bob_device : Device :=
  {| dev_URL := "ledger://0001:0002:00";
     dev_Accounts := fun n => match n with O => [] | S _ => [bob_account] end |}.

(** A Linux host: alice's key is in the geth keystore and unlocks with
    the passphrase "secret"; a Ledger with bob's key is attached. *)
Definition linux_host : Host :=
  {| GOOS := "linux";
     env_HOME := "/home/alice";
     env_LOCALAPPDATA := "";
     user_Current := Some "/home/alice";
     homedir_Dir := inr "/home/alice";
     readdir := fun _ => None;
     keystore := fun dir =>
       if (dir =? "/home/alice/.ethereum/keystore")%string then [alice_wallet] else [];
     usbwallet_NewLedgerHub := inr [bob_device];
     viper_usbwallets := 1;
     viper_passphrase := "";
     Address_Hex := fun a => "0x" ++ hex_EncodeToString a;
     SignDataWithPassphrase := fun _ _ passphrase _ _ =>
       if (passphrase =? "secret")%string then inr [x01] else inl "could not decrypt key with given password";
     SignTx := fun _ _ _ _ => inr [x01; x02] |}.

(** The same host on which the hub cannot be created. *)
Definition hubless_host : Host :=
  with_hub linux_host (inl "unsupported platform") 1.

(** The same host running an operating system Parity's layout does not
    know. *)
Definition freebsd_host : Host :=
  {| GOOS := "freebsd";
     env_HOME := env_HOME linux_host; env_LOCALAPPDATA := "";
     user_Current := user_Current linux_host; homedir_Dir := homedir_Dir linux_host;
     readdir := readdir linux_host; keystore := keystore linux_host;
     usbwallet_NewLedgerHub := usbwallet_NewLedgerHub linux_host;
     viper_usbwallets := 1; viper_passphrase := "";
     Address_Hex := Address_Hex linux_host;
     SignDataWithPassphrase := SignDataWithPassphrase linux_host;
     SignTx := SignTx linux_host |}.

(** The layout claimed for the Parity key directory: whatever the chain,
    the directory found ends in one fixed leaf (the spec names it
    "keystore"). *)
Definition parity_fixed_leaf (h : Host) : Prop :=
  exists leaf,
    forall chainID dir,
      cli.obtainParityWallets_keydir h chainID = Ok dir ->
      HasSuffix dir (Separator (GOOS h) ++ leaf) = true.

(** The last path element joined by the chain branch of the Parity
    functions. *)
Definition parity_chain_dir (goos dir : string) (chainID : Z) : string :=
  if chainID =? MainnetChainID then filepath_Join goos [dir; "ethereum"]
  else if chainID =? TestnetChainID then filepath_Join goos [dir; "test"]
  else dir.

(** The error of [ObtainWallet], the spec's [WalletNotFound]. *)
Definition WalletNotFound (h : Host) (address : Address) : error :=
  "failed to obtain wallet for " ++ Address_Hex h address.

(** The wallets a backend contributes to a search: none when its
    enumeration failed. *)
Definition backend_wallets (r : result (list Wallet)) : list Wallet :=
  match r with
  | Ok wallets => wallets
  | _ => []
  end.

(** [FindWallet] in the spec's words: the backends in the order geth
    keystore, Parity keystore, hardware hub; the first wallet whose
    accounts contain the address; [WalletNotFound] when no backend has
    it. *)
Definition FindWallet_spec (h : Host) (chainID : Z) (address : Address)
  : result Wallet :=
  match find (fun w => cli.Contains w address)
          (flat_map backend_wallets
             [cli.obtainGethWallets h chainID;
              cli.obtainParityWallets h chainID;
              cli.obtainLedgerWallets h chainID]) with
  | Some w => Ok w
  | None => Err (WalletNotFound h address)
  end.

Definition FindWallet_claim (h : Host) (chainID : Z) (address : Address) : Prop :=
  cli.ObtainWallet h chainID address = FindWallet_spec h chainID address.

(** Listing in the spec's words: a hub that cannot be created leaves the
    wallets of the local keystores as the result. *)
Definition listing_survives_hub_failure (h : Host) (chainID : Z) : Prop :=
  forall err gethWallets parityWallets,
    usbwallet_NewLedgerHub h = inl err ->
    cli.obtainGethWallets h chainID = Ok gethWallets ->
    cli.obtainParityWallets h chainID = Ok parityWallets ->
    cli.ObtainWallets h chainID = Ok (gethWallets ++ parityWallets)%list.

(** The state after further events. *)
Definition record (s : State) (events : list Event) : State :=
  {| trace := (trace s ++ events)%list; gasPrice := gasPrice s; nonce := nonce s |}.

(** The signature request by which [VerifyPassphrase] checks a
    passphrase. *)
Definition verification_request (wallet : Wallet) (account : Account)
    (passphrase : string) : Event :=
  SignDataWithPassphrase_call wallet account passphrase
    "application/octet-stream" (repeat x00 32).

Definition initial : State := {| trace := []; gasPrice := None; nonce := None |}.

(** A pending transfer from alice to bob at a gas price of 1 gwei. *)
Definition pending_tx : Transaction :=
  {| tx_Nonce := 7; tx_GasPrice := 1000000000; tx_Gas := 21000;
     tx_To := Some bob; tx_Value := 5; tx_Data := [x0c; xaf]; tx_sig := [x0a; x0b] |}.

(** A node that reports [pending_tx], as still pending or as mined, for
    every hash.  The encoding is a stand-in for RLP: the stated
    properties hold for any encoding. *)
Definition sample_client (pending : bool) : cmd.Client :=
  {| cmd.chainID := MainnetChainID;
     cmd.HexToHash := fun _ => repeat x11 32;
     cmd.Hash_Hex := fun hash => "0x" ++ hex_EncodeToString hash;
     cmd.big_String := fun _ => "";
     cmd.WeiToString := fun _ _ => "1.100000001 GWei";
     cmd.StringToWei := fun _ => inr 0;
     cmd.TransactionByHash := fun _ => inr (pending_tx, pending);
     cmd.SendTransaction := fun _ => inr tt;
     cmd.SuggestGasPrice := 2000000000;
     cmd.PendingNonceAt := fun _ => 8;
     cmd.EncodeRLP := fun tx => (tx_sig tx ++ tx_Data tx)%list;
     cmd.txFrom := fun _ => inr alice;
     cmd.ens_Resolve := fun _ => inr alice;
     cmd.parseContract := fun _ => Ret {| cmd.contract_Name := "erc20"; cmd.contract_Abi := "[]" |};
     cmd.ParseCall := fun _ _ => inr ({| cmd.method_Name := "transfer" |}, []);
     cmd.Abi_Pack := fun _ _ _ => inr [xa9; x05];
     cmd.handleSubmittedTransaction := fun _ _ _ => Exit 0 |}.

Definition sample_flags (offline quiet : bool) (gasprice : string) : cmd.Flags :=
  {| cmd.quiet := quiet; cmd.verbose := false; cmd.offline := offline;
     cmd.gasLimit := 100000; cmd.viper_gasprice := gasprice;
     cmd.transactionStr := "0x454d2274155cce506359de6358785ce5366f6c13e825263674c272eec8532c0c";
     cmd.contractStr := "0xd26114cd6EE289AccF82350c8d8487fedB8A0C07";
     cmd.contractSendAmount := "";
     cmd.contractSendFromAddress := "0x5FfC014343cd971B7eb70732021E26C35B744cc4";
     cmd.contractSendCall := "transfer(0x5FfC014343cd971B7eb70732021E26C35B744cc4, 10)" |}.

(** The hash the "transaction up" command looks up. *)
Definition up_txHash (c : cmd.Client) (f : cmd.Flags) : Hash :=
  cmd.HexToHash c (cmd.transactionStr f).

(** The failure of line 49, the spec's [AlreadyMined]. *)
Definition AlreadyMined (c : cmd.Client) (f : cmd.Flags) : string :=
  "Transaction " ++ cmd.Hash_Hex c (up_txHash c f) ++ " has already been mined".

(** The failure of line 57. *)
Definition GasPriceTooLow (c : cmd.Client) (tx : Transaction) : string :=
  "Gas price must be at least " ++ cmd.WeiToString c (cmd.minGasPrice tx) true.

(** The line the offline path prints for a signed transaction. *)
Definition offline_line (c : cmd.Client) (signedTx : Transaction) : string :=
  "0x" ++ hex_EncodeToString (cmd.EncodeRLP c signedTx) ++ newline.

(** A run that, from the state [s1] reached by the signing, printed
    exactly [lines], broadcast nothing and exited with the success
    code. *)
Definition offline_outcome (run : Res unit * State) (s1 : State)
    (lines : list string) : Prop :=
  fst run = Exit cmd._exit_success /\
  exit_status (fst run) = Some 0 /\
  stdout (trace (snd run)) = (stdout (trace s1) ++ lines)%list /\
  broadcasts (trace (snd run)) = broadcasts (trace s1).

(** Offline emission as claimed: whenever the offline flag is set, the
    encoded transaction is printed. *)
Definition offline_emit_claim (h : Host) (c : cmd.Client) (f : cmd.Flags)
    (s : State) : Prop :=
  forall tx signedTx s1,
    cmd.offline f = true ->
    cmd.transactionUpCmd_sign h c f s = (Ret (tx, signedTx), s1) ->
    offline_outcome (cmd.transactionUpCmd h c f s) s1 [offline_line c signedTx].

(** The replacement the sample node and host lead to when no gas price
    is supplied, and the state the signing leaves. *)
Definition replacement_tx : Transaction :=
  {| tx_Nonce := 7; tx_GasPrice := 1100000001; tx_Gas := 21000;
     tx_To := Some bob; tx_Value := 5; tx_Data := [x0c; xaf]; tx_sig := [x01; x02] |}.

Definition after_signing : State :=
  {| trace := [TransactionByHash_call (repeat x11 32);
               SignTx_call alice_wallet alice_account (cmd.with_sig replacement_tx [])];
     gasPrice := Some 1100000001;
     nonce := Some 7 |}.

(** The message of the panic of [windowsAppData]. *)
Definition LocalAppData_panic : string :=
  "environment variable LocalAppData is undefined".

(** The situation in which [windowsAppData] is reached with no
    LOCALAPPDATA. *)
Definition LocalAppData_missing (h : Host) : Prop :=
  cli.homeDir h <> "" /\ GOOS h = "windows" /\ env_LOCALAPPDATA h = "".

(** A Windows host without LOCALAPPDATA on which the legacy data
    directory exists and is not empty. *)
Definition windows_host : Host :=
  {| GOOS := "windows";
     env_HOME := "C:\Users\alice";
     env_LOCALAPPDATA := "";
     user_Current := Some "C:\Users\alice";
     homedir_Dir := inr "C:\Users\alice";
     readdir := fun dir =>
       if (dir =? "C:\Users\alice\AppData\Roaming\Ethereum")%string
       then Some ["keystore"] else None;
     keystore := fun _ => [alice_wallet];
     usbwallet_NewLedgerHub := inr [];
     viper_usbwallets := 1;
     viper_passphrase := "";
     Address_Hex := Address_Hex linux_host;
     SignDataWithPassphrase := SignDataWithPassphrase linux_host;
     SignTx := SignTx linux_host |}.

(** A host on which neither HOME nor the current user gives a home
    directory. *)
Definition homeless_host : Host :=
  {| GOOS := "linux";
     env_HOME := "";
     env_LOCALAPPDATA := "";
     user_Current := None;
     homedir_Dir := inl "missing home";
     readdir := fun _ => None;
     keystore := fun dir =>
       if (dir =? "testnet/keystore")%string then [alice_wallet] else [];
     usbwallet_NewLedgerHub := inr [];
     viper_usbwallets := 0;
     viper_passphrase := "";
     Address_Hex := Address_Hex linux_host;
     SignDataWithPassphrase := SignDataWithPassphrase linux_host;
     SignTx := SignTx linux_host |}.

(** ** What runs add to the trace *)

(** Every run of [m] only appends events that satisfy [P]. *)
Definition emits_only {A} (P : Event -> Prop) (m : M A) : Prop :=
  forall s, exists events,
    trace (snd (m s)) = (trace s ++ events)%list /\ Forall P events.

(** The line [ObtainAccount] prints when a passphrase fails. *)
Definition verifying_line : string := "Verifying passphrase" ++ newline.

(** Events of the signing part of a command: no broadcast, no hand-over
    to [handleSubmittedTransaction], and no line on standard output but
    [verifying_line]. *)
Definition signing_event (e : Event) : Prop :=
  match e with
  | Printf line => line = verifying_line
  | SendTransaction_call _ => False
  | handleSubmittedTransaction_call _ _ _ => False
  | _ => True
  end.

(** Events that stay on the host: anything but a broadcast and the
    hand-over to [handleSubmittedTransaction]. *)
Definition local_event (e : Event) : Prop :=
  match e with
  | SendTransaction_call _ => False
  | handleSubmittedTransaction_call _ _ _ => False
  | _ => True
  end.




(** Flags with no --transaction, and flags of a "contract send" with no
    --contract. *)
Definition no_transaction_flags : cmd.Flags :=
  {| cmd.quiet := false; cmd.verbose := false; cmd.offline := false;
     cmd.gasLimit := 0; cmd.viper_gasprice := ""; cmd.transactionStr := "";
     cmd.contractStr := ""; cmd.contractSendAmount := "";
     cmd.contractSendFromAddress := ""; cmd.contractSendCall := "" |}.

Definition no_contract_flags : cmd.Flags :=
  {| cmd.quiet := false; cmd.verbose := true; cmd.offline := false;
     cmd.gasLimit := 0; cmd.viper_gasprice := ""; cmd.transactionStr := "";
     cmd.contractStr := ""; cmd.contractSendAmount := "";
     cmd.contractSendFromAddress := "alice.eth";
     cmd.contractSendCall := "transfer(bob.eth, 10)" |}.



(** * transactioninfo.go *)

(** ** [encoding/hex], [strings] and [fmt] *)

(** [fromHexChar]. *)
Definition fromHexChar (ch : ascii) : option N :=
  let n := N_of_ascii ch in
  if ((48 <=? n) && (n <=? 57))%N then Some (n - 48)%N
  else if ((97 <=? n) && (n <=? 102))%N then Some (n - 97 + 10)%N
  else if ((65 <=? n) && (n <=? 70))%N then Some (n - 65 + 10)%N
  else None.

Definition ErrLength : error := "encoding/hex: odd length hex string".

(** The message of [InvalidByteError] also names the byte; nothing here
    reads it. *)
Definition InvalidByteError : error := "encoding/hex: invalid byte".

(** [hex.DecodeString]: pairs of digits from the left, the first invalid
    digit reported before an odd length. *)
Fixpoint hex_DecodeString (s : string) : error + list byte :=
  match s with
  | EmptyString => inr []
  | String p EmptyString =>
      match fromHexChar p with
      | None => inl InvalidByteError
      | Some _ => inl ErrLength
      end
  | String p (String q rest) =>
      match fromHexChar p, fromHexChar q with
      | Some a, Some b =>
          match hex_DecodeString rest with
          | inr bytes =>
              inr (match of_N (N.lor (N.shiftl a 4) b) with
                   | Some v => v
                   | None => x00
                   end :: bytes)
          | inl err => inl err
          end
      | _, _ => inl InvalidByteError
      end
  end.

(** [strings.TrimPrefix]. *)
Definition strings_TrimPrefix (s prefix : string) : string :=
  if String.prefix prefix s
  then substring (String.length prefix) (String.length s - String.length prefix) s
  else s.

(** [strings.Split] on a one-character separator. *)
Fixpoint strings_Split (s : string) (sep : ascii) : list string :=
  match s with
  | EmptyString => [EmptyString]
  | String ch rest =>
      if Ascii.eqb ch sep then EmptyString :: strings_Split rest sep
      else match strings_Split rest sep with
           | first :: others => String ch first :: others
           | [] => [String ch EmptyString]
           end
  end.

Definition tab : string := String (ascii_of_nat 9) EmptyString.

(** The verbs [%v] and [%d] on an unsigned integer. *)
Definition decimal (n : Z) : string := NilZero.string_of_int (Z.to_int n).

Module transactioninfo.

(** A Go byte slice: its elements, and the part of its backing array
    that lies between its length and its capacity. *)
Record Slice := { elems : list byte; spare : list byte }.

Definition len (s : Slice) : nat := List.length (elems s).

Definition cap (s : Slice) : nat :=
  (List.length (elems s) + List.length (spare s))%nat.

(** The slice expression [s[low:high]]: its upper bound is the capacity,
    not the length; out of range it panics ([None]). *)
Definition slice (s : Slice) (low high : nat) : option (list byte) :=
  if ((low <=? high) && (high <=? cap s))%nat
  then Some (firstn (high - low) (skipn low (elems s ++ spare s)))
  else None.

(** [types.Log] and [types.Receipt], the fields the command reads. *)
Record Log := {
  log_Address : Address;
  log_Topics : list Hash;
  log_Data : Slice;
  log_BlockNumber : Z
}.

Record Receipt := {
  Status : Z;
  Logs : list Log;
  ContractAddress : Address;
  GasUsed : Z
}.

(** What the command calls beyond [cmd.Client].  The signatures added
    through [txdata.AddFunctionSignature] are passed to the two [txdata]
    functions that read them. *)
Record Env := {
  DecodeRLP : list byte -> error + Transaction;   (* tx.DecodeRLP on a stream over the bytes *)
  tx_Hash : Transaction -> Hash;                   (* tx.Hash() *)
  MarshalJSON : Transaction -> error + string;
  TransactionReceipt : Hash -> option Receipt;     (* the receipt, nil on failure; the error is not read *)
  ens_Format : Address -> string;
  DataToString : list string -> list byte -> string;
  EventToString : list string -> Log -> string
}.

Record InfoFlags := {
  transactionInfoRaw : bool;
  transactionInfoJSON : bool;
  transactionInfoSignatures : string
}.

(** Lines 165-167: [for j, topic := range log.Topics]. *)
Fixpoint print_Topics (c : cmd.Client) (topics : list Hash) (j : nat) : M unit :=
  match topics with
  | [] => ret tt
  | topic :: rest =>
      (emit (Printf (tab ++ tab ++ tab ++ decimal (Z.of_nat j) ++ ":" ++ tab
                     ++ cmd.Hash_Hex c topic ++ newline)) ;;
       print_Topics c rest (S j))%go
  end.

(** Lines 171-173: [for j := 0; j*32 < len(log.Data); j++], with [fuel]
    iterations allowed. *)
Fixpoint print_Data_from (fuel : nat) (data : Slice) (j : nat) : M unit :=
  match fuel with
  | O => ret tt
  | S fuel' =>
      if (j * 32 <? len data)%nat then
        match slice data (j * 32) ((j + 1) * 32) with
        | None => panic "slice bounds out of range"
        | Some word =>
            (emit (Printf (tab ++ tab ++ tab ++ decimal (Z.of_nat j) ++ ":" ++ tab
                           ++ "0x" ++ hex_EncodeToString word ++ newline)) ;;
             print_Data_from fuel' data (S j))%go
        end
      else ret tt
  end.

(** The loop never runs more often than the data is long. *)
Definition print_Data (data : Slice) : M unit :=
  print_Data_from (len data) data 0.

(** Lines 156-175: one log. *)
Definition print_Log (c : cmd.Client) (e : Env) (signatures : list string)
    (i : nat) (log : Log) : M unit :=
  (emit (Printf (tab ++ decimal (Z.of_nat i) ++ ":" ++ newline)) ;;
   emit (Printf (tab ++ tab ++ "From:" ++ tab ++ ens_Format e (log_Address log)
                 ++ newline)) ;;
   (* Try to obtain decoded log *)
   let decoded := EventToString e signatures log in
   if negb (decoded =? "")%string then
     emit (Printf (tab ++ tab ++ "Event:" ++ tab ++ decoded ++ newline))
   else
     (if (0 <? List.length (log_Topics log))%nat then
        emit (Printf (tab ++ tab ++ "Topics:" ++ newline)) ;;
        print_Topics c (log_Topics log) 0
      else ret tt) ;;
     (if (0 <? len (log_Data log))%nat then
        emit (Printf (tab ++ tab ++ "Data:" ++ newline)) ;;
        print_Data (log_Data log)
      else ret tt))%go.

(** Line 155: [for i, log := range receipt.Logs]. *)
Fixpoint print_Logs (c : cmd.Client) (e : Env) (signatures : list string)
    (logs : list Log) (i : nat) : M unit :=
  match logs with
  | [] => ret tt
  | log :: rest =>
      (print_Log c e signatures i log ;;
       print_Logs c e signatures rest (S i))%go
  end.

(** Lines 47-68: the transaction, from the raw input or from the node,
    with its hash and whether it is pending. *)
Definition transactionInfoCmd_lookup (c : cmd.Client) (e : Env) (f : cmd.Flags)
  : M (Hash * bool * Transaction) :=
  (cmd.Assert (negb (cmd.transactionStr f =? "")%string) (cmd.quiet f)
     "--transaction is required" ;;
   if (66 <? String.length (cmd.transactionStr f))%nat then
     (* Assume input is a raw transaction *)
     data <- cmd.ErrCheck
               (hex_DecodeString (strings_TrimPrefix (cmd.transactionStr f) "0x"))
               (cmd.quiet f) "Failed to decode data" ;;
     tx <- cmd.ErrCheck (DecodeRLP e data) (cmd.quiet f)
             "Failed to decode raw transaction" ;;
     ret (tx_Hash e tx, false, tx)
   else
     (* Assume input is a transaction ID *)
     let txHash := cmd.HexToHash c (cmd.transactionStr f) in
     emit (TransactionByHash_call txHash) ;;
     r <- cmd.ErrCheck (cmd.TransactionByHash c txHash) (cmd.quiet f)
            ("Failed to obtain transaction " ++ cmd.Hash_Hex c txHash) ;;
     let '(tx, pending) := r in
     ret (txHash, pending, tx))%go.

(** Lines 88-177: the report on a transaction. *)
Definition transactionInfoCmd_report (c : cmd.Client) (e : Env) (f : cmd.Flags)
    (g : InfoFlags) (txHash : Hash) (pending : bool) (tx : Transaction) : M unit :=
  (let signatures :=
     if negb (transactionInfoSignatures g =? "")%string
     then strings_Split (transactionInfoSignatures g) ";"
     else [] in

   receipt <-
     (if pending then
        (match tx_To tx with
         | None => emit (Printf ("Type:" ++ tab ++ tab ++ tab
                                 ++ "Pending contract creation" ++ newline))
         | Some _ => emit (Printf ("Type:" ++ tab ++ tab ++ tab
                                   ++ "Pending transaction" ++ newline))
         end) ;;
        ret None
      else
        (match tx_To tx with
         | None => emit (Printf ("Type:" ++ tab ++ tab ++ tab
                                 ++ "Mined contract creation" ++ newline))
         | Some _ => emit (Printf ("Type:" ++ tab ++ tab ++ tab
                                   ++ "Mined transaction" ++ newline))
         end) ;;
        let receipt := TransactionReceipt e txHash in
        (match receipt with
         | Some receipt =>
             if Status receipt =? 0
             then emit (Printf ("Result:" ++ tab ++ tab ++ tab ++ "Failed" ++ newline))
             else emit (Printf ("Result:" ++ tab ++ tab ++ tab ++ "Succeeded" ++ newline))
         | None => ret tt
         end) ;;
        ret receipt) ;;

   (match receipt with
    | Some receipt =>
        match Logs receipt with
        | log :: _ =>
            (* We can obtain the block number from the log *)
            emit (Printf ("Block:" ++ tab ++ tab ++ tab
                          ++ decimal (log_BlockNumber log) ++ newline))
        | [] => ret tt
        end
    | None => ret tt
    end) ;;

   (match cmd.txFrom c tx with
    | inr fromAddress =>
        emit (Printf ("From:" ++ tab ++ tab ++ tab ++ ens_Format e fromAddress
                      ++ newline))
    | inl _ => ret tt
    end) ;;

   (* To *)
   (match tx_To tx with
    | None =>
        match receipt with
        | Some receipt =>
            emit (Printf ("Contract address:" ++ tab
                          ++ ens_Format e (ContractAddress receipt) ++ newline))
        | None => ret tt
        end
    | Some to =>
        emit (Printf ("To:" ++ tab ++ tab ++ tab ++ ens_Format e to ++ newline))
    end) ;;

   (if cmd.verbose f then
      emit (Printf ("Nonce:" ++ tab ++ tab ++ tab ++ decimal (tx_Nonce tx) ++ newline)) ;;
      emit (Printf ("Gas limit:" ++ tab ++ tab ++ decimal (tx_Gas tx) ++ newline))
    else ret tt) ;;
   (match receipt with
    | Some receipt =>
        emit (Printf ("Gas used:" ++ tab ++ tab ++ decimal (GasUsed receipt) ++ newline))
    | None => ret tt
    end) ;;
   emit (Printf ("Gas price:" ++ tab ++ tab
                 ++ cmd.WeiToString c (tx_GasPrice tx) true ++ newline)) ;;
   emit (Printf ("Value:" ++ tab ++ tab ++ tab
                 ++ cmd.WeiToString c (tx_Value tx) true ++ newline)) ;;

   (match tx_To tx with
    | Some _ =>
        if (0 <? List.length (tx_Data tx))%nat then
          emit (Printf ("Data:" ++ tab ++ tab ++ tab
                        ++ DataToString e signatures (tx_Data tx) ++ newline))
        else ret tt
    | None => ret tt
    end) ;;

   (match receipt with
    | Some receipt =>
        if cmd.verbose f && (0 <? List.length (Logs receipt))%nat then
          emit (Printf ("Logs:" ++ newline)) ;;
          print_Logs c e signatures (Logs receipt) 0
        else ret tt
    | None => ret tt
    end))%go.

(** Lines 46-178, the whole command. *)
Definition transactionInfoCmd (c : cmd.Client) (e : Env) (f : cmd.Flags)
    (g : InfoFlags) : M unit :=
  (r <- transactionInfoCmd_lookup c e f ;;
   let '(txHash, pending, tx) := r in

   (if cmd.quiet f then os_Exit cmd._exit_success else ret tt) ;;

   (if transactionInfoRaw g then
      let buf := cmd.EncodeRLP c tx in
      emit (Printf ("0x" ++ hex_EncodeToString buf ++ newline)) ;;
      os_Exit cmd._exit_success
    else ret tt) ;;

   (if transactionInfoJSON g then
      json <- cmd.ErrCheck (MarshalJSON e tx) (cmd.quiet f)
                ("Failed to obtain JSON for transaction " ++ cmd.Hash_Hex c txHash) ;;
      emit (Printf (json ++ newline)) ;;
      os_Exit cmd._exit_success
    else ret tt) ;;

   transactionInfoCmd_report c e f g txHash pending tx)%go.

End transactioninfo.

(** * ensaddressset.go *)

Module ensaddressset.

(** [ens.UnknownAddress], the zero address. *)
Definition UnknownAddress : Address := repeat x00 20.

(** [bytes.Compare(a.Bytes(), b.Bytes()) != 0]. *)
Definition differs (a b : Address) : bool := negb (Address_eqb a b).

Record Registry := { registry_ContractAddr : Address }.
Record Resolver := { ContractAddr : Address }.
Record TransactOpts := { opts_From : Address }.

(** The ENS library, and [generateTxOpts], which is declared outside
    these files. *)
Record Env := {
  NewRegistry : error + Registry;                        (* ens.NewRegistry(client) *)
  Owner : Registry -> string -> error + Address;         (* registry.Owner(domain) *)
  Resolve : string -> Address * option error;            (* ens.Resolve(client, input), both results *)
  NewResolver : string -> error + Resolver;              (* ens.NewResolver(client, domain) *)
  generateTxOpts : Address -> error + TransactOpts;
  SetAddress : Resolver -> TransactOpts -> Address -> error + Transaction;
  ens_Format : Address -> string;
  address_Hex : Address -> string                        (* address.Hex() *)
}.

Record SetFlags := {
  ensDomain : string;
  ensAddressSetAddressStr : string
}.

Definition quote : string := String (ascii_of_nat 34) EmptyString.

Definition clear_hint : string :=
  "Invalid address; if you are trying to clear an existing address use "
  ++ quote ++ "ens address clear" ++ quote.

(** Lines 40-65: up to the transaction [SetAddress] returns. *)
Definition ensAddressSetCmd_send (c : cmd.Client) (e : Env) (f : cmd.Flags)
    (g : SetFlags) : M (Address * Transaction) :=
  (cmd.Assert (negb (cmd.offline f)) (cmd.quiet f)
     "Offline mode not supported at current with this command" ;;
   cmd.Assert (negb (ensDomain g =? "")%string) (cmd.quiet f) "--domain is required" ;;

   registry <- cmd.ErrCheck (NewRegistry e) (cmd.quiet f)
                 "Cannot obtain ENS registry contract" ;;

   (* Fetch the owner of the name *)
   owner <- cmd.ErrCheck (Owner e registry (ensDomain g)) (cmd.quiet f)
              "Cannot obtain owner" ;;
   cmd.Assert (differs owner UnknownAddress) (cmd.quiet f)
     ("owner of " ++ ensDomain g ++ " is not set") ;;
   emit (outputIf_call (cmd.verbose f)
           ("Domain is owned by " ++ ens_Format e owner)) ;;

   (* Obtain the address *)
   let '(address, err) := Resolve e (ensAddressSetAddressStr g) in
   cmd.Assert (differs address UnknownAddress) (cmd.quiet f) clear_hint ;;
   cmd.ErrCheck (match err with Some err => inl err | None => inr tt end) (cmd.quiet f)
     ("Invalid name/address " ++ ensAddressSetAddressStr g) ;;

   (* Obtain the resolver for this name *)
   resolver <- cmd.ErrCheck (NewResolver e (ensDomain g)) (cmd.quiet f)
                 "No resolver for that name" ;;
   emit (outputIf_call (cmd.verbose f)
           ("Resolver is " ++ ens_Format e (ContractAddr resolver))) ;;

   opts <- cmd.ErrCheck (generateTxOpts e owner) (cmd.quiet f)
             "Failed to generate transaction options" ;;
   signedTx <- cmd.ErrCheck (SetAddress e resolver opts address) (cmd.quiet f)
                 "Failed to send transaction" ;;
   ret (address, signedTx))%go.

(** Lines 39-73, the whole command. *)
Definition ensAddressSetCmd (c : cmd.Client) (e : Env) (f : cmd.Flags)
    (g : SetFlags) : M unit :=
  (r <- ensAddressSetCmd_send c e f g ;;
   let '(address, signedTx) := r in
   let fields := [("group", "ens/address"); ("command", "set");
                  ("ensdomain", ensDomain g);
                  ("address", address_Hex e address)] in
   emit (handleSubmittedTransaction_call signedTx fields true) ;;
   cmd.external (cmd.handleSubmittedTransaction c signedTx fields true))%go.

End ensaddressset.

(** Sample input of "transaction info": the flags, and an environment
    whose RLP decoding inverts the stand-in encoding of
    [sample_client] on [replacement_tx]. *)
Definition long_tx : Transaction :=
  {| tx_Nonce := 7; tx_GasPrice := 1100000001; tx_Gas := 21000;
     tx_To := Some bob; tx_Value := 5; tx_Data := repeat xaf 40; tx_sig := [x01; x02] |}.

Definition sample_info_env : transactioninfo.Env :=
  {| transactioninfo.DecodeRLP := fun _ => inr long_tx;
     transactioninfo.tx_Hash := fun _ => repeat x22 32;
     transactioninfo.MarshalJSON := fun _ => inr "{}";
     transactioninfo.TransactionReceipt := fun _ => None;
     transactioninfo.ens_Format := fun a => "0x" ++ hex_EncodeToString a;
     transactioninfo.DataToString := fun _ data => "0x" ++ hex_EncodeToString data;
     transactioninfo.EventToString := fun _ _ => "" |}.

Definition info_flags (raw json : bool) : transactioninfo.InfoFlags :=
  {| transactioninfo.transactionInfoRaw := raw;
     transactioninfo.transactionInfoJSON := json;
     transactioninfo.transactionInfoSignatures := "" |}.

Definition flags_for (transactionStr : string) (quiet : bool) : cmd.Flags :=
  {| cmd.quiet := quiet; cmd.verbose := false; cmd.offline := false;
     cmd.gasLimit := 0; cmd.viper_gasprice := "";
     cmd.transactionStr := transactionStr;
     cmd.contractStr := ""; cmd.contractSendAmount := "";
     cmd.contractSendFromAddress := ""; cmd.contractSendCall := "" |}.

(** Events that are lines on standard output. *)
Definition print_event (e : Event) : Prop :=
  match e with
  | Printf _ => True
  | _ => False
  end.

(** The first line of the report on a transaction that is not
    pending. *)
Definition mined_line (tx : Transaction) : string :=
  "Type:" ++ tab ++ tab ++ tab
  ++ match tx_To tx with
     | None => "Mined contract creation"
     | Some _ => "Mined transaction"
     end ++ newline.

(** The line of the [j]-th 32-byte word of some log data. *)
Definition word_line (bytes : list byte) (j : nat) : string :=
  tab ++ tab ++ tab ++ decimal (Z.of_nat j) ++ ":" ++ tab ++ "0x"
  ++ hex_EncodeToString (firstn 32 (skipn (j * 32) bytes)) ++ newline.

(** The one event of the lookup of "transaction info". *)
Definition lookup_event (e : Event) : Prop :=
  match e with
  | TransactionByHash_call _ => True
  | _ => False
  end.

(** Log data of 40 bytes in a backing array of 48: not a multiple of 32,
    and too short a capacity for a second 32-byte word. *)
Definition ragged_data : transactioninfo.Slice :=
  {| transactioninfo.elems := repeat xaa 40; transactioninfo.spare := repeat xbb 8 |}.

Definition aligned_data : transactioninfo.Slice :=
  {| transactioninfo.elems := (repeat xaa 32 ++ repeat xcc 32)%list;
     transactioninfo.spare := [] |}.

Definition roomy_data : transactioninfo.Slice :=
  {| transactioninfo.elems := repeat xaa 40; transactioninfo.spare := repeat xbb 30 |}.

(** Sample input of "ens address set": the domain is owned by alice and
    is to point to bob. *)
Definition sample_ens_env (target : Address) (err : option error) : ensaddressset.Env :=
  {| ensaddressset.NewRegistry := inr {| ensaddressset.registry_ContractAddr := repeat x0e 20 |};
     ensaddressset.Owner := fun _ _ => inr alice;
     ensaddressset.Resolve := fun _ => (target, err);
     ensaddressset.NewResolver := fun _ => inr {| ensaddressset.ContractAddr := repeat x0f 20 |};
     ensaddressset.generateTxOpts := fun owner => inr {| ensaddressset.opts_From := owner |};
     ensaddressset.SetAddress := fun _ _ _ => inr replacement_tx;
     ensaddressset.ens_Format := fun a => "0x" ++ hex_EncodeToString a;
     ensaddressset.address_Hex := fun a => "0x" ++ hex_EncodeToString a |}.

Definition sample_set_flags : ensaddressset.SetFlags :=
  {| ensaddressset.ensDomain := "enstest.eth";
     ensaddressset.ensAddressSetAddressStr := "bob.eth" |}.



(** Events of "ens address set" before the hand-over. *)
Definition output_event (e : Event) : Prop :=
  match e with
  | outputIf_call _ _ => True
  | _ => False
  end.


(** Whether the directory can be opened and has an entry. *)
Definition has_entry (h : Host) (dir : string) : bool :=
  match readdir h dir with
  | Some (_ :: _) => true
  | _ => false
  end.

(** A Windows host with LOCALAPPDATA and no legacy data directory. *)
Definition windows_host_appdata : Host :=
  {| GOOS := "windows";
     env_HOME := "C:\Users\alice";
     env_LOCALAPPDATA := "C:\Users\alice\AppData\Local";
     user_Current := None;
     homedir_Dir := inr "C:\Users\alice";
     readdir := fun _ => None;
     keystore := fun _ => [];
     usbwallet_NewLedgerHub := inr [];
     viper_usbwallets := 1;
     viper_passphrase := "";
     Address_Hex := Address_Hex linux_host;
     SignDataWithPassphrase := SignDataWithPassphrase linux_host;
     SignTx := SignTx linux_host |}.

(** The directories on which the [filepath.Join] of this file is exactly
    Go's: at least two elements between separators, none of them "." or
    "..", none but the first empty (so no doubled or trailing
    separator), and on Windows no forward slash.  [Clean] leaves such a
    path as it is, and [Join] extends it by a separator and the next
    element. *)
Definition separator_char (goos : string) : ascii :=
  if (goos =? "windows")%string then "\"%char else "/"%char.

Definition plain_element (e : string) : bool :=
  negb (e =? "")%string && negb (e =? ".")%string && negb (e =? "..")%string.

Definition plain_dir (goos dir : string) : bool :=
  match strings_Split dir (separator_char goos) with
  | first :: (_ :: _) as others =>
      negb (first =? ".")%string && negb (first =? "..")%string &&
      forallb plain_element others &&
      (negb (goos =? "windows")%string ||
       (List.length (strings_Split dir "/"%char) =? 1)%nat)
  | _ => false
  end.

Ltac branches :=
  repeat match goal with
         | |- context [if ?b then _ else _] => destruct b eqn:?
         end.

(** * Properties *)

Lemma Address_eqb_eq (a b : Address) : Address_eqb a b = true <-> a = b.
Proof.
  unfold Address_eqb. destruct (list_eq_dec byte_eq_dec a b); split; congruence.
Qed.

Lemma Address_eqb_refl (a : Address) : Address_eqb a a = true.
Proof. now apply Address_eqb_eq. Qed.

(** ** Strings and paths *)

Lemma length_append (a b : string) :
  String.length (a ++ b) = (String.length a + String.length b)%nat.
Proof. induction a as [|ch a IH]; simpl; [reflexivity | now rewrite IH]. Qed.

Lemma Separator_length (goos : string) : String.length (Separator goos) = 1%nat.
Proof. unfold Separator. now destruct (goos =? "windows")%string. Qed.

(** Joining a directory and a non-empty element. *)
Lemma filepath_Join2 (goos a b : string) :
  b <> "" ->
  filepath_Join goos [a; b] = if (a =? "")%string then b else a ++ Separator goos ++ b.
Proof.
  intros Hb. unfold filepath_Join. simpl.
  apply String.eqb_neq in Hb. rewrite Hb. simpl.
  destruct (a =? "")%string; reflexivity.
Qed.

Lemma filepath_Join2_length (goos a b : string) :
  b <> "" ->
  String.length (filepath_Join goos [a; b]) =
  ((if (a =? "")%string then 0 else String.length a + 1) + String.length b)%nat.
Proof.
  intros Hb. rewrite filepath_Join2 by assumption.
  destruct (a =? "")%string; [reflexivity|].
  rewrite !length_append, Separator_length. lia.
Qed.

(** The length of [<dir>/<d>/keystore] and of [<dir>/keystore]. *)
Lemma keystore_under_length (goos dir d : string) :
  d <> "" ->
  String.length (filepath_Join goos [filepath_Join goos [dir; d]; "keystore"]) =
  ((if (dir =? "")%string then 0 else String.length dir + 1)
   + String.length d + 9)%nat.
Proof.
  intros Hd. rewrite filepath_Join2_length by discriminate.
  pose proof (filepath_Join2_length goos dir d Hd) as L.
  destruct (String.eqb_spec (filepath_Join goos [dir; d]) "") as [E|_].
  - rewrite E in L. simpl in L. destruct d; [congruence | simpl in L; lia].
  - rewrite L. simpl. lia.
Qed.

Lemma keystore_length (goos dir : string) :
  String.length (filepath_Join goos [dir; "keystore"]) =
  ((if (dir =? "")%string then 0 else String.length dir + 1) + 8)%nat.
Proof. now rewrite filepath_Join2_length by discriminate. Qed.

(** ** The geth keystore directory *)

Lemma obtainGethWallet_subdir_reachable (chainID : Z) :
  cli.obtainGethWallet_subdir chainID = geth_reachable_subdir chainID.
Proof. unfold cli.obtainGethWallet_subdir, geth_reachable_subdir. branches; reflexivity. Qed.

Lemma obtainGethWallets_subdir_reachable (chainID : Z) :
  cli.obtainGethWallets_subdir chainID = geth_reachable_subdir chainID.
Proof. unfold cli.obtainGethWallets_subdir, geth_reachable_subdir. branches; reflexivity. Qed.

Lemma geth_reachable_subdir_cases (chainID : Z) :
  geth_reachable_subdir chainID = None \/
  geth_reachable_subdir chainID = Some "testnet" \/
  geth_reachable_subdir chainID = Some "rinkeby" \/
  geth_reachable_subdir chainID = Some "goerli".
Proof. unfold geth_reachable_subdir. branches; auto. Qed.

(** The directory computed over a data directory [base] is never
    [<base>/<d>/keystore] for a [d] of length 5 or 9. *)
Lemma geth_keydir_not_under (h : Host) (chainID : Z) (base d : string) :
  cli.DefaultDataDir h = Ok base ->
  d <> "" ->
  String.length d <> 7%nat -> String.length d <> 6%nat ->
  cli.obtainGethWallet_keydir h chainID <>
  Ok (filepath_Join (GOOS h) [filepath_Join (GOOS h) [base; d]; "keystore"]).
Proof.
  intros Hbase Hd H7 H6 E.
  unfold cli.obtainGethWallet_keydir in E. rewrite Hbase in E. simpl in E.
  rewrite obtainGethWallet_subdir_reachable in E.
  injection E as E. apply (f_equal String.length) in E.
  rewrite (keystore_under_length _ _ d Hd) in E.
  destruct (geth_reachable_subdir_cases chainID) as [S|[S|[S|S]]]; rewrite S in E.
  - rewrite keystore_length in E. lia.
  - rewrite (keystore_under_length _ _ "testnet") in E by discriminate. simpl in E. lia.
  - rewrite (keystore_under_length _ _ "rinkeby") in E by discriminate. simpl in E. lia.
  - rewrite (keystore_under_length _ _ "goerli") in E by discriminate. simpl in E. lia.
Qed.

(** C4: for every chain identifier, neither [obtainGethWallet] nor
    [obtainGethWallets] selects the "volta" or the "energyweb"
    subdirectory: each chained conditional equals the one without those
    two branches, whose guards repeat the Goerli comparison of the branch
    before them, and over a data directory [base] the keystore directory
    is never [base/volta/keystore] nor [base/energyweb/keystore]. *)
Theorem geth_volta_energyweb_unreachable (h : Host) (chainID : Z) :
  (cli.obtainGethWallet_subdir chainID = geth_reachable_subdir chainID /\
   cli.obtainGethWallet_subdir chainID <> Some "volta" /\
   cli.obtainGethWallet_subdir chainID <> Some "energyweb" /\
   cli.obtainGethWallets_subdir chainID = geth_reachable_subdir chainID /\
   cli.obtainGethWallets_subdir chainID <> Some "volta" /\
   cli.obtainGethWallets_subdir chainID <> Some "energyweb") /\
  (forall base d,
     cli.DefaultDataDir h = Ok base ->
     d = "volta" \/ d = "energyweb" ->
     cli.obtainGethWallet_keydir h chainID <>
       Ok (filepath_Join (GOOS h) [filepath_Join (GOOS h) [base; d]; "keystore"]) /\
     cli.obtainGethWallets_keydir h chainID <>
       Ok (filepath_Join (GOOS h) [filepath_Join (GOOS h) [base; d]; "keystore"])).
Proof.
  split.
  - rewrite obtainGethWallet_subdir_reachable, obtainGethWallets_subdir_reachable.
    destruct (geth_reachable_subdir_cases chainID) as [S|[S|[S|S]]];
      rewrite S; repeat split; discriminate.
  - intros base d Hbase [-> | ->]; split;
      apply geth_keydir_not_under; (assumption || discriminate).
Qed.

Lemma geth_volta_energyweb_unreachable_witness :
  cli.obtainGethWallets_subdir GoerliChainID = Some "goerli" /\
  cli.obtainGethWallets_keydir linux_host 73799 <>
    Ok "/home/alice/.ethereum/volta/keystore" /\
  cli.obtainGethWallet_keydir linux_host 246 <>
    Ok "/home/alice/.ethereum/energyweb/keystore".
Proof.
  split; [reflexivity | split].
  - destruct (geth_volta_energyweb_unreachable linux_host 73799) as [_ H].
    apply (H "/home/alice/.ethereum" "volta" eq_refl). now left.
  - destruct (geth_volta_energyweb_unreachable linux_host 246) as [_ H].
    apply (H "/home/alice/.ethereum" "energyweb" eq_refl). now right.
Defined.

Lemma Cmp_eqb (x y : Z) : (Cmp x y =? 0) = (x =? y).
Proof.
  unfold Cmp.
  destruct (Z.compare_spec x y); destruct (Z.eqb_spec x y); (reflexivity || lia).
Qed.

Lemma Cmp_neq (x y : Z) : x <> y -> (Cmp x y =? 0) = false.
Proof. intros H. rewrite Cmp_eqb. now apply Z.eqb_neq. Qed.

(** C10: a chain identifier that is none of mainnet, testnet, Rinkeby
    and Goerli makes no path resolution fail.  The geth keystore
    directory is the data directory joined directly with "keystore", the
    directory of mainnet; and the Parity key directory is the
    operating-system directory with no chain subdirectory. *)
Theorem unrecognised_chain_falls_back (h : Host) (chainID : Z) :
  chainID <> MainnetChainID -> chainID <> TestnetChainID ->
  chainID <> RinkebyChainID -> chainID <> GoerliChainID ->
  (forall base, cli.DefaultDataDir h = Ok base ->
     cli.obtainGethWallets_keydir h chainID
       = Ok (filepath_Join (GOOS h) [base; "keystore"]) /\
     cli.obtainGethWallet_keydir h chainID
       = Ok (filepath_Join (GOOS h) [base; "keystore"])) /\
  cli.obtainGethWallets_keydir h chainID
    = cli.obtainGethWallets_keydir h MainnetChainID /\
  cli.obtainGethWallet_keydir h chainID
    = cli.obtainGethWallet_keydir h MainnetChainID /\
  (forall home dir, homedir_Dir h = inr home ->
     cli.obtainParityWallets_osdir h home = Ok dir ->
     cli.obtainParityWallets_keydir h chainID = Ok dir /\
     cli.obtainParityWallet_keydir h chainID = Ok dir).
Proof.
  intros H1 H3 H4 H5.
  assert (G : cli.obtainGethWallets_subdir chainID = None).
  { unfold cli.obtainGethWallets_subdir. now rewrite !Cmp_neq by assumption. }
  assert (P : cli.obtainParityWallets_subdir chainID = None).
  { unfold cli.obtainParityWallets_subdir. now rewrite !Cmp_neq by assumption. }
  split; [|split; [|split]].
  - intros base Hb. split.
    + unfold cli.obtainGethWallets_keydir. rewrite Hb, G. reflexivity.
    + unfold cli.obtainGethWallet_keydir.
      change (cli.obtainGethWallet_subdir chainID)
        with (cli.obtainGethWallets_subdir chainID).
      rewrite Hb, G. reflexivity.
  - unfold cli.obtainGethWallets_keydir. rewrite G. reflexivity.
  - unfold cli.obtainGethWallet_keydir.
    change (cli.obtainGethWallet_subdir chainID)
      with (cli.obtainGethWallets_subdir chainID).
    rewrite G. reflexivity.
  - intros home dir Hh Ho.
    assert (E : cli.obtainParityWallets_keydir h chainID = Ok dir).
    { unfold cli.obtainParityWallets_keydir. rewrite Hh. cbv beta iota.
      rewrite Ho, P. reflexivity. }
    split; [exact E | exact E].
Qed.

Lemma unrecognised_chain_falls_back_witness :
  cli.obtainGethWallets_keydir linux_host 246 = Ok "/home/alice/.ethereum/keystore" /\
  cli.obtainParityWallets_keydir linux_host 246
    = Ok "/home/alice/.local/share/io.parity.ethereum/keys".
Proof.
  assert (T := unrecognised_chain_falls_back linux_host 246).
  destruct T as (G & _ & _ & P); try discriminate.
  split.
  - exact (proj1 (G "/home/alice/.ethereum" eq_refl)).
  - exact (proj1 (P "/home/alice" _ eq_refl eq_refl)).
Defined.

(** ** The Parity key directory *)

Lemma obtainParityWallets_subdir_chain_dir (goos dir : string) (chainID : Z) :
  match cli.obtainParityWallets_subdir chainID with
  | Some d => filepath_Join goos [dir; d]
  | None => dir
  end = parity_chain_dir goos dir chainID.
Proof.
  unfold cli.obtainParityWallets_subdir, parity_chain_dir.
  rewrite !Cmp_eqb. branches; reflexivity.
Qed.

(** C8, as amended: the Parity key directory is resolved through exactly
    three operating-system branches, each a fixed path ending in "keys"
    under the home directory, and every other operating system fails
    with "Unsupported operating system"; the chain subdirectory
    ("ethereum" on mainnet, "test" on testnet, none otherwise) is joined
    after it as the last element, and no "keystore" element is added. *)
Theorem parity_keydir_by_os (h : Host) (chainID : Z) (home : string) :
  homedir_Dir h = inr home ->
  let keydir := cli.obtainParityWallets_keydir h chainID in
  cli.obtainParityWallet_keydir h chainID = keydir /\
  (GOOS h = "windows" ->
     keydir = Ok (parity_chain_dir "windows"
       (filepath_Join "windows" [home; "AppData\Roaming\Parity\Ethereum\keys"]) chainID)) /\
  (GOOS h = "darwin" ->
     keydir = Ok (parity_chain_dir "darwin"
       (filepath_Join "darwin" [home; "Library/Application Support/io.parity.ethereum/keys"])
       chainID)) /\
  (GOOS h = "linux" ->
     keydir = Ok (parity_chain_dir "linux"
       (filepath_Join "linux" [home; ".local/share/io.parity.ethereum/keys"]) chainID)) /\
  (GOOS h <> "windows" -> GOOS h <> "darwin" -> GOOS h <> "linux" ->
     keydir = Err "Unsupported operating system").
Proof.
  intros Hh keydir. subst keydir. split; [reflexivity|].
  unfold cli.obtainParityWallets_keydir, cli.obtainParityWallets_osdir. rewrite Hh.
  repeat split.
  - intros E. rewrite E. simpl. now rewrite obtainParityWallets_subdir_chain_dir.
  - intros E. rewrite E. simpl. now rewrite obtainParityWallets_subdir_chain_dir.
  - intros E. rewrite E. simpl. now rewrite obtainParityWallets_subdir_chain_dir.
  - intros W D L.
    apply String.eqb_neq in W, D, L. now rewrite W, D, L.
Qed.

Lemma parity_keydir_by_os_witness :
  cli.obtainParityWallets_keydir linux_host MainnetChainID
    = Ok "/home/alice/.local/share/io.parity.ethereum/keys/ethereum" /\
  cli.obtainParityWallets_keydir freebsd_host MainnetChainID
    = Err "Unsupported operating system".
Proof.
  split.
  - exact (proj1 (proj2 (proj2 (proj2
      (parity_keydir_by_os linux_host MainnetChainID "/home/alice" eq_refl))))
      eq_refl).
  - apply (proj2 (proj2 (proj2 (proj2
      (parity_keydir_by_os freebsd_host MainnetChainID "/home/alice" eq_refl)))));
      discriminate.
Defined.

Lemma parity_fixed_leaf_counterexample : ~ parity_fixed_leaf linux_host.
Proof.
  intros [leaf H].
  pose proof (H MainnetChainID _ eq_refl) as Hm.
  pose proof (H TestnetChainID _ eq_refl) as Ht.
  unfold HasSuffix in Hm, Ht.
  change (Separator (GOOS linux_host) ++ leaf) with (String "/" leaf) in Hm, Ht.
  cbn [string_rev] in Hm, Ht.
  destruct (string_rev leaf) as [|ch rest].
  - vm_compute in Hm. discriminate.
  - cbn in Hm, Ht.
    destruct (ascii_dec ch "m"); [|discriminate].
    destruct (ascii_dec ch "t"); [|discriminate].
    congruence.
Qed.

(** ** Finding and listing wallets *)

Lemma find_app_first {A} (p : A -> bool) (l1 l2 : list A) :
  find p (l1 ++ l2)%list =
  match find p l1 with
  | Some x => Some x
  | None => find p l2
  end.
Proof.
  induction l1 as [|x l1 IH]; simpl; [reflexivity|].
  destruct (p x); [reflexivity | exact IH].
Qed.

Lemma obtainGethWallet_Find (h : Host) (chainID : Z) (address : Address) ws :
  cli.obtainGethWallets h chainID = Ok ws ->
  cli.obtainGethWallet h chainID address = cli.Find ws address.
Proof.
  unfold cli.obtainGethWallets, cli.obtainGethWallet.
  change (cli.obtainGethWallet_keydir h chainID)
    with (cli.obtainGethWallets_keydir h chainID).
  destruct (cli.obtainGethWallets_keydir h chainID); simpl; congruence.
Qed.

Lemma obtainParityWallet_Find (h : Host) (chainID : Z) (address : Address) :
  cli.obtainParityWallet h chainID address =
  match cli.obtainParityWallets h chainID with
  | Ok ws => cli.Find ws address
  | Err e => Err e
  | Panic m => Panic m
  end.
Proof.
  unfold cli.obtainParityWallets, cli.obtainParityWallet.
  change (cli.obtainParityWallet_keydir h chainID)
    with (cli.obtainParityWallets_keydir h chainID).
  destruct (cli.obtainParityWallets_keydir h chainID); reflexivity.
Qed.

Lemma obtainParityWallets_no_panic (h : Host) (chainID : Z) m :
  cli.obtainParityWallets h chainID <> Panic m.
Proof.
  unfold cli.obtainParityWallets, cli.obtainParityWallets_keydir,
    cli.obtainParityWallets_osdir.
  destruct (homedir_Dir h); [discriminate|].
  branches; discriminate.
Qed.

(** C3, as amended: [ObtainWallet] searches the geth keystore and then
    the Parity keystore, and nothing else: its result does not depend on
    the hardware hub.  When the geth keystore can be listed, the wallet
    returned is the first one, in the order geth wallets then Parity
    wallets, whose accounts contain the address, a Parity keystore that
    cannot be resolved counting as empty; an error of the geth search is
    only a non-match and the Parity search still runs; when neither
    search finds the address the error is "failed to obtain wallet for"
    the address. *)
Theorem ObtainWallet_keystores_only (h : Host) (chainID : Z) (address : Address) :
  (forall hub usbwallets,
     cli.ObtainWallet (with_hub h hub usbwallets) chainID address
     = cli.ObtainWallet h chainID address) /\
  (forall gethWallets,
     cli.obtainGethWallets h chainID = Ok gethWallets ->
     cli.ObtainWallet h chainID address =
     match find (fun w => cli.Contains w address)
             (gethWallets ++ backend_wallets (cli.obtainParityWallets h chainID))%list with
     | Some w => Ok w
     | None => Err (WalletNotFound h address)
     end) /\
  (forall e,
     cli.obtainGethWallet h chainID address = Err e ->
     cli.ObtainWallet h chainID address =
     match cli.obtainParityWallet h chainID address with
     | Ok w => Ok w
     | Err _ => Err (WalletNotFound h address)
     | Panic m => Panic m
     end).
Proof.
  split; [|split].
  - intros hub usbwallets. reflexivity.
  - intros gs Hg. unfold cli.ObtainWallet.
    rewrite (obtainGethWallet_Find h chainID address gs Hg), obtainParityWallet_Find.
    rewrite find_app_first. unfold cli.Find.
    destruct (find (fun w => cli.Contains w address) gs); [reflexivity|].
    destruct (cli.obtainParityWallets h chainID) as [ps|e|m] eqn:Hp; simpl.
    + now destruct (find (fun w => cli.Contains w address) ps).
    + reflexivity.
    + now apply obtainParityWallets_no_panic in Hp.
  - intros e He. unfold cli.ObtainWallet. rewrite He. reflexivity.
Qed.

Lemma ObtainWallet_keystores_only_witness :
  cli.ObtainWallet linux_host MainnetChainID alice = Ok alice_wallet /\
  cli.ObtainWallet linux_host MainnetChainID bob
  = Err "failed to obtain wallet for 0xb0b0b0b0b0b0b0b0b0b0b0b0b0b0b0b0b0b0b0b0".
Proof.
  split.
  - exact (proj1 (proj2 (ObtainWallet_keystores_only linux_host MainnetChainID alice))
             [alice_wallet] eq_refl).
  - exact (proj2 (proj2 (ObtainWallet_keystores_only linux_host MainnetChainID bob))
             "unknown account" eq_refl).
Defined.

Lemma FindWallet_claim_counterexample :
  ~ FindWallet_claim linux_host MainnetChainID bob.
Proof. unfold FindWallet_claim. vm_compute. discriminate. Qed.

(** C5, as amended: when both local keystores can be listed, an error of
    the hardware hub's creation is returned by [ObtainWallets] in place
    of any wallet; when the hub is created the result is the geth
    wallets, the Parity wallets and the hub's wallets, in that order. *)
Theorem ObtainWallets_hub (h : Host) (chainID : Z) (gethWallets parityWallets : list Wallet) :
  cli.obtainGethWallets h chainID = Ok gethWallets ->
  cli.obtainParityWallets h chainID = Ok parityWallets ->
  (forall err, usbwallet_NewLedgerHub h = inl err ->
     cli.ObtainWallets h chainID = Err err) /\
  (forall ledgerWallets, cli.obtainLedgerWallets h chainID = Ok ledgerWallets ->
     cli.ObtainWallets h chainID
     = Ok (gethWallets ++ parityWallets ++ ledgerWallets)%list).
Proof.
  intros Hg Hp. unfold cli.ObtainWallets. rewrite Hg, Hp. simpl. split.
  - intros err Hh. unfold cli.obtainLedgerWallets. now rewrite Hh.
  - intros ls Hl. rewrite Hl. simpl. now rewrite app_assoc.
Qed.

Lemma ObtainWallets_hub_witness :
  cli.ObtainWallets hubless_host MainnetChainID = Err "unsupported platform" /\
  cli.ObtainWallets linux_host MainnetChainID
  = Ok [alice_wallet;
        {| wallet_URL := "ledger://0001:0002:00"; Accounts := [bob_account] |}].
Proof.
  split.
  - exact (proj1 (ObtainWallets_hub hubless_host MainnetChainID [alice_wallet] []
                    eq_refl eq_refl) "unsupported platform" eq_refl).
  - exact (proj2 (ObtainWallets_hub linux_host MainnetChainID [alice_wallet] []
                    eq_refl eq_refl) _ eq_refl).
Defined.

Lemma listing_survives_hub_failure_counterexample :
  ~ listing_survives_hub_failure hubless_host MainnetChainID.
Proof.
  intros H.
  specialize (H "unsupported platform" [alice_wallet] [] eq_refl eq_refl eq_refl).
  discriminate H.
Qed.

(** ** Resolving the account *)

Lemma record_nil (s : State) : record s [] = s.
Proof. destruct s. unfold record. simpl. now rewrite app_nil_r. Qed.

Lemma record_record (s : State) (a b : list Event) :
  record (record s a) b = record s (a ++ b).
Proof. unfold record. simpl. now rewrite app_assoc. Qed.

Lemma emit_record (e : Event) (s : State) : emit e s = (Ret tt, record s [e]).
Proof. reflexivity. Qed.

(** The loop stops at the first account that has the address. *)
Lemma ObtainAccount_loop_find (h : Host) (wallet : Wallet) (accounts : list Account)
    (address : Address) (passphrase : string) :
  cli.ObtainAccount_loop h wallet accounts address passphrase =
  match find (fun a => Address_eqb address (acc_Address a)) accounts with
  | None => ret (inl "account not found")
  | Some account =>
      cli.ObtainAccount_loop h wallet [account] address passphrase
  end.
Proof.
  induction accounts as [|a rest IH]; simpl; [reflexivity|].
  destruct (Address_eqb address (acc_Address a)) eqn:E.
  - now rewrite E.
  - exact IH.
Qed.

Lemma find_address_none (address : Address) (accounts : list Account) :
  (forall a, In a accounts -> acc_Address a <> address) ->
  find (fun a => Address_eqb address (acc_Address a)) accounts = None.
Proof.
  intros H. induction accounts as [|a rest IH]; simpl; [reflexivity|].
  destruct (Address_eqb address (acc_Address a)) eqn:E.
  - apply Address_eqb_eq in E. exfalso. apply (H a); [now left | congruence].
  - apply IH. intros b Hb. apply H. now right.
Qed.

Lemma find_address_some (address : Address) (accounts : list Account) account :
  find (fun a => Address_eqb address (acc_Address a)) accounts = Some account ->
  In account accounts /\ acc_Address account = address.
Proof.
  intros H. apply find_some in H. destruct H as [Hin E].
  apply Address_eqb_eq in E. now split.
Qed.

(** C6: [ObtainAccount] fails with "account not found" when no account
    of the wallet has the address.  Otherwise, for the first account
    that has it: with an empty passphrase the account is returned and no
    signature is requested; with a non-empty one, a signature over the
    constant 32 zero bytes is requested from the wallet, a signing error
    gives "invalid passphrase" and no account, and a signature gives the
    account, the signature itself being dropped. *)
Theorem ObtainAccount_passphrase (h : Host) (wallet : Wallet) (address : Address)
    (passphrase : string) (s : State) :
  let run := cli.ObtainAccount h wallet address passphrase s in
  let found := find (fun a => Address_eqb address (acc_Address a)) (Accounts wallet) in
  let payload := cli.VerifyPassphrase_data in
  ((forall a, In a (Accounts wallet) -> acc_Address a <> address) ->
     run = (Ret (inl "account not found"), s)) /\
  (forall account, found = Some account -> passphrase = "" ->
     run = (Ret (inr account), s) /\
     verifications (trace (snd run)) = verifications (trace s)) /\
  (forall account err, found = Some account -> passphrase <> "" ->
     SignDataWithPassphrase h wallet account passphrase
       "application/octet-stream" payload = inl err ->
     run = (Ret (inl "invalid passphrase"),
            record s [verification_request wallet account passphrase;
                      Printf ("Verifying passphrase" ++ newline)])) /\
  (forall account signature, found = Some account -> passphrase <> "" ->
     SignDataWithPassphrase h wallet account passphrase
       "application/octet-stream" payload = inr signature ->
     run = (Ret (inr account),
            record s [verification_request wallet account passphrase])).
Proof.
  intros run found payload. subst run found payload.
  unfold cli.ObtainAccount. rewrite ObtainAccount_loop_find.
  split; [|split; [|split]].
  - intros H. now rewrite (find_address_none _ _ H).
  - intros account Hf ->. rewrite Hf.
    pose proof (find_address_some _ _ _ Hf) as [_ E].
    simpl. rewrite <- E, Address_eqb_refl. split; reflexivity.
  - intros account err Hf Hp Hs. rewrite Hf.
    pose proof (find_address_some _ _ _ Hf) as [_ E].
    simpl. rewrite <- E, Address_eqb_refl.
    apply String.eqb_neq in Hp. rewrite Hp. simpl.
    unfold cli.VerifyPassphrase, bind. rewrite emit_record.
    rewrite Hs. simpl.
    unfold ret, record. simpl. now rewrite <- app_assoc.
  - intros account signature Hf Hp Hs. rewrite Hf.
    pose proof (find_address_some _ _ _ Hf) as [_ E].
    simpl. rewrite <- E, Address_eqb_refl.
    apply String.eqb_neq in Hp. rewrite Hp. simpl.
    unfold cli.VerifyPassphrase, bind. rewrite emit_record.
    rewrite Hs. reflexivity.
Qed.

Lemma ObtainAccount_passphrase_witness :
  cli.ObtainAccount linux_host alice_wallet bob "secret" initial
    = (Ret (inl "account not found"), initial) /\
  cli.ObtainAccount linux_host alice_wallet alice "" initial
    = (Ret (inr alice_account), initial) /\
  cli.ObtainAccount linux_host alice_wallet alice "wrong" initial
    = (Ret (inl "invalid passphrase"),
       record initial [verification_request alice_wallet alice_account "wrong";
                       Printf ("Verifying passphrase" ++ newline)]) /\
  cli.ObtainAccount linux_host alice_wallet alice "secret" initial
    = (Ret (inr alice_account),
       record initial [verification_request alice_wallet alice_account "secret"]).
Proof.
  split; [|split; [|split]].
  - pose proof (ObtainAccount_passphrase linux_host alice_wallet bob "secret" initial)
      as T.
    cbv zeta in T. destruct T as (T & _). apply T.
    intros a [<- | []]. discriminate.
  - pose proof (ObtainAccount_passphrase linux_host alice_wallet alice "" initial)
      as T.
    cbv zeta in T. destruct T as (_ & T & _).
    exact (proj1 (T alice_account eq_refl eq_refl)).
  - pose proof (ObtainAccount_passphrase linux_host alice_wallet alice "wrong" initial)
      as T.
    cbv zeta in T. destruct T as (_ & _ & T & _).
    apply (T alice_account "could not decrypt key with given password");
      (reflexivity || discriminate).
  - pose proof (ObtainAccount_passphrase linux_host alice_wallet alice "secret" initial)
      as T.
    cbv zeta in T. destruct T as (_ & _ & _ & T).
    apply (T alice_account [x01]); (reflexivity || discriminate).
Defined.

(** ** Runs of the process monad *)

Lemma bind_Ret_inv {A B} (m : M A) (k : A -> M B) (s s' : State) (b : B) :
  bind m k s = (Ret b, s') ->
  exists a s1, m s = (Ret a, s1) /\ k a s1 = (Ret b, s').
Proof.
  unfold bind. destruct (m s) as [[a|code|msg|msg] s1]; try discriminate.
  intros H. now exists a, s1.
Qed.

Lemma ret_inv {A} (a b : A) (s s' : State) :
  ret a s = (Ret b, s') -> a = b /\ s' = s.
Proof. unfold ret. intros H. injection H as -> ->. now split. Qed.

Lemma Assert_inv (condition quiet : bool) (msg : string) (s s' : State) (u : unit) :
  cmd.Assert condition quiet msg s = (Ret u, s') -> condition = true /\ s' = s.
Proof.
  unfold cmd.Assert. destruct condition; [|discriminate].
  intros H. apply ret_inv in H. now split.
Qed.

Lemma ErrCheck_inv {A} (r : error + A) (quiet : bool) (msg : string)
    (s s' : State) (a : A) :
  cmd.ErrCheck r quiet msg s = (Ret a, s') -> r = inr a /\ s' = s.
Proof.
  unfold cmd.ErrCheck. destruct r as [e|x]; [discriminate|].
  intros H. apply ret_inv in H. destruct H as [-> ->]. now split.
Qed.

Lemma emit_inv (e : Event) (s s' : State) (u : unit) :
  emit e s = (Ret u, s') -> s' = record s [e].
Proof. rewrite emit_record. intros H. now injection H as _ <-. Qed.

Lemma stdout_app (a b : list Event) : stdout (a ++ b) = (stdout a ++ stdout b)%list.
Proof.
  induction a as [|e a IH]; simpl; [reflexivity|].
  destruct e; simpl; now rewrite ?IH.
Qed.

Lemma broadcasts_app (a b : list Event) :
  broadcasts (a ++ b) = (broadcasts a ++ broadcasts b)%list.
Proof.
  induction a as [|e a IH]; simpl; [reflexivity|].
  destruct e; simpl; now rewrite ?IH.
Qed.


(** A successful [ObtainAccount] returns an account with the address
    asked for, leaves the package-level variables alone and neither
    prints, nor asks for a transaction signature, nor broadcasts. *)
Lemma ObtainAccount_ok (h : Host) (wallet : Wallet) (address : Address)
    (passphrase : string) (s s' : State) (account : Account) :
  cli.ObtainAccount h wallet address passphrase s = (Ret (inr account), s') ->
  acc_Address account = address /\
  exists events,
    s' = record s events /\
    stdout events = [] /\ broadcasts events = [] /\ signing_requests events = [].
Proof.
  unfold cli.ObtainAccount. rewrite ObtainAccount_loop_find.
  destruct (find _ (Accounts wallet)) as [a|] eqn:Hf; [|discriminate].
  pose proof (find_address_some _ _ _ Hf) as [_ E].
  simpl. rewrite <- E, Address_eqb_refl.
  destruct (passphrase =? "")%string; simpl.
  - intros H. injection H as <- <-. split; [reflexivity|].
    exists []. now rewrite record_nil.
  - unfold cli.VerifyPassphrase, bind. rewrite emit_record.
    destruct (SignDataWithPassphrase h wallet a passphrase _ _); simpl.
    + discriminate.
    + intros H. injection H as <- <-. split; [reflexivity|].
      eexists. split; [reflexivity|]. now repeat split.
Qed.

Lemma ObtainWalletAndAccount_ok (h : Host) (chainID : Z) (address : Address)
    (s s' : State) (wallet : Wallet) (account : Account) :
  cli.ObtainWalletAndAccount h chainID address s = (Ret (inr (wallet, account)), s') ->
  acc_Address account = address /\
  exists events,
    s' = record s events /\
    stdout events = [] /\ broadcasts events = [] /\ signing_requests events = [].
Proof.
  unfold cli.ObtainWalletAndAccount. intros H.
  apply bind_Ret_inv in H. destruct H as (r & s1 & Hw & H).
  assert (s1 = s) as ->.
  { destruct (cli.ObtainWallet h chainID address); simpl in Hw;
      [ | | discriminate]; now injection Hw. }
  destruct r as [err|w].
  - apply ret_inv in H. destruct H as [H _]. discriminate.
  - apply bind_Ret_inv in H. destruct H as (r & s2 & Ha & H).
    destruct r as [err|a].
    + apply ret_inv in H. destruct H as [H _]. discriminate.
    + apply ret_inv in H. destruct H as [H ->].
      injection H as -> ->. now apply ObtainAccount_ok in Ha.
Qed.

(** The unsigned transaction [createSignedTransaction] builds in state
    [s]. *)
Lemma createSignedTransaction_ok (h : Host) (c : cmd.Client) (fromAddress : Address)
    (toAddress : option Address) (amount gasLimit : Z) (data : list byte)
    (s s' : State) (signedTx : Transaction) :
  cmd.createSignedTransaction h c fromAddress toAddress amount gasLimit data s
  = (Ret (inr signedTx), s') ->
  exists wallet account sig events,
    let tx :=
      {| tx_Nonce := match nonce s with
                     | Some n => uint64 n
                     | None => cmd.PendingNonceAt c fromAddress
                     end;
         tx_GasPrice := match gasPrice s with
                        | Some p => p
                        | None => cmd.SuggestGasPrice c
                        end;
         tx_Gas := gasLimit; tx_To := toAddress; tx_Value := amount;
         tx_Data := data; tx_sig := [] |} in
    acc_Address account = fromAddress /\
    SignTx h wallet account (viper_passphrase h) tx = inr sig /\
    signedTx = cmd.with_sig tx sig /\
    s' = record s (events ++ [SignTx_call wallet account tx]) /\
    stdout events = [] /\ broadcasts events = [] /\ signing_requests events = [].
Proof.
  unfold cmd.createSignedTransaction. intros H.
  apply bind_Ret_inv in H. destruct H as (r & s1 & Hw & H).
  destruct r as [err|[wallet account]].
  - apply ret_inv in H. destruct H as [H _]. discriminate.
  - apply ObtainWalletAndAccount_ok in Hw.
    destruct Hw as (Ea & events & -> & Ho & Hb & Hs).
    apply bind_Ret_inv in H. destruct H as (s0 & s2 & Hg & H).
    unfold get in Hg. injection Hg as <- <-.
    apply bind_Ret_inv in H. destruct H as (u & s3 & He & H).
    apply emit_inv in He. subst s3. simpl in H.
    destruct (SignTx h wallet account (viper_passphrase h) _) as [err|sig] eqn:Hsig.
    + apply ret_inv in H. destruct H as [H _]. discriminate.
    + apply ret_inv in H. destruct H as [H ->]. injection H as <-.
      exists wallet, account, sig, events. cbv zeta.
      repeat split; try assumption. now rewrite record_record.
Qed.

(** ** The "transaction up" command *)

Lemma Cmp_gt (x y : Z) : (Cmp x y >? 0) = true <-> x > y.
Proof.
  unfold Cmp. destruct (Z.compare_spec x y); simpl; split; intros; (lia || discriminate).
Qed.


(** What a run of lines 43-66 that reaches the signed replacement went
    through. *)
Lemma transactionUpCmd_sign_ok (h : Host) (c : cmd.Client) (f : cmd.Flags)
    (s s' : State) (tx signedTx : Transaction) :
  cmd.transactionUpCmd_sign h c f s = (Ret (tx, signedTx), s') ->
  let txHash := cmd.HexToHash c (cmd.transactionStr f) in
  cmd.transactionStr f <> "" /\
  cmd.TransactionByHash c txHash = inr (tx, true) /\
  exists price wallet account sig events,
    let unsigned :=
      {| tx_Nonce := uint64 (int64 (tx_Nonce tx)); tx_GasPrice := price;
         tx_Gas := tx_Gas tx; tx_To := tx_To tx; tx_Value := tx_Value tx;
         tx_Data := tx_Data tx; tx_sig := [] |} in
    (cmd.viper_gasprice f = "" /\ price = cmd.minGasPrice tx \/
     cmd.viper_gasprice f <> "" /\ gasPrice s = Some price /\
     price > cmd.minGasPrice tx) /\
    cmd.txFrom c tx = inr (acc_Address account) /\
    signedTx = cmd.with_sig unsigned sig /\
    trace s' = (trace s ++ TransactionByHash_call txHash
                  :: events ++ [SignTx_call wallet account unsigned])%list /\
    stdout events = [] /\ broadcasts events = [] /\ signing_requests events = [] /\
    gasPrice s' = Some price /\ nonce s' = Some (int64 (tx_Nonce tx)).
Proof.
  intros H txHash. unfold cmd.transactionUpCmd_sign in H. fold txHash in H.
  apply bind_Ret_inv in H. destruct H as (u & s1 & Ha & H).
  apply Assert_inv in Ha. destruct Ha as [Hstr ->].
  apply negb_true_iff, String.eqb_neq in Hstr.
  apply bind_Ret_inv in H. destruct H as (u1 & s1 & He & H).
  apply emit_inv in He. subst s1.
  apply bind_Ret_inv in H. destruct H as ([tx0 pending] & s1 & Hf & H).
  apply ErrCheck_inv in Hf. destruct Hf as [Hf ->].
  apply bind_Ret_inv in H. destruct H as (u2 & s1 & Hp & H).
  apply Assert_inv in Hp. destruct Hp as [-> ->].
  apply bind_Ret_inv in H. destruct H as (u3 & s1 & Hg & H).
  apply bind_Ret_inv in H. destruct H as (fromAddress & s2 & Hfrom & H).
  apply ErrCheck_inv in Hfrom. destruct Hfrom as [Hfrom ->].
  apply bind_Ret_inv in H. destruct H as (u4 & s2 & Hn & H).
  unfold set_nonce in Hn. injection Hn as _ <-.
  apply bind_Ret_inv in H. destruct H as (r & s3 & Hc & H).
  apply bind_Ret_inv in H. destruct H as (stx & s4 & Hr & H).
  apply ErrCheck_inv in Hr. destruct Hr as [-> ->].
  apply ret_inv in H. destruct H as [H ->]. injection H as -> ->.
  apply createSignedTransaction_ok in Hc.
  destruct Hc as (wallet & account & sig & events & Hc). cbv zeta in Hc.
  destruct Hc as (Ea & _ & Hsigned & -> & Ho & Hb & Hs). simpl in Hsigned.
  split; [assumption|]. split; [exact Hf|].
  assert (G : exists price,
             (cmd.viper_gasprice f = "" /\ price = cmd.minGasPrice tx \/
              cmd.viper_gasprice f <> "" /\ gasPrice s = Some price /\
              price > cmd.minGasPrice tx) /\
             gasPrice s1 = Some price /\
             trace s1 = (trace s ++ [TransactionByHash_call txHash])%list).
  { destruct (cmd.viper_gasprice f =? "")%string eqn:Eg.
    - apply String.eqb_eq in Eg. unfold set_gasPrice in Hg. injection Hg as _ <-.
      exists (cmd.minGasPrice tx). simpl. auto.
    - apply String.eqb_neq in Eg.
      apply bind_Ret_inv in Hg. destruct Hg as (s0 & s5 & Hget & Hg).
      unfold get in Hget. injection Hget as <- <-.
      simpl in Hg. destruct (gasPrice s) as [p|] eqn:Ep; [|discriminate].
      apply Assert_inv in Hg. destruct Hg as [Hgt ->].
      apply Cmp_gt in Hgt. exists p. simpl. rewrite Ep. auto 6. }
  destruct G as (price & Hprice & Hs1 & Ht1).
  simpl in Hsigned. rewrite Hs1 in Hsigned.
  exists price, wallet, account, sig, events. cbv zeta.
  split; [exact Hprice|]. split; [now rewrite Ea|]. split; [exact Hsigned|].
  split; [simpl; rewrite Ht1, Hs1; rewrite <- app_assoc; reflexivity|].
  repeat (split; [assumption|]). reflexivity.
Qed.

Lemma minGasPrice_eq (tx : Transaction) :
  cmd.minGasPrice tx = tx_GasPrice tx + tx_GasPrice tx / 10 + 1.
Proof.
  unfold cmd.minGasPrice, big_Div. simpl Z.sgn. simpl Z.abs.
  now rewrite Z.mul_1_l.
Qed.


(** A run of the command is the run of its signing part when that part
    ends the process. *)
Lemma transactionUpCmd_stops (h : Host) (c : cmd.Client) (f : cmd.Flags)
    (s s' : State) (msg : string) :
  cmd.transactionUpCmd_sign h c f s = (Fatal msg, s') ->
  cmd.transactionUpCmd h c f s = (Fatal msg, s').
Proof. intros H. unfold cmd.transactionUpCmd, bind. now rewrite H. Qed.

Lemma transactionUpCmd_sign_start (h : Host) (c : cmd.Client) (f : cmd.Flags)
    (s : State) (tx : Transaction) (pending : bool) :
  cmd.transactionStr f <> "" ->
  cmd.TransactionByHash c (up_txHash c f) = inr (tx, pending) ->
  exists k,
    cmd.transactionUpCmd_sign h c f s
    = bind (cmd.Assert pending (cmd.quiet f) (AlreadyMined c f))
        k (record s [TransactionByHash_call (up_txHash c f)]) /\
    forall u s1,
      k u s1 =
      bind (if (cmd.viper_gasprice f =? "")%string
            then set_gasPrice (cmd.minGasPrice tx)
            else bind get (fun s0 =>
                   match gasPrice s0 with
                   | None => panic "invalid memory address or nil pointer dereference"
                   | Some p => cmd.Assert (Cmp p (cmd.minGasPrice tx) >? 0)
                                 (cmd.quiet f) (GasPriceTooLow c tx)
                   end))
        (fun _ => bind (cmd.ErrCheck (cmd.txFrom c tx) (cmd.quiet f)
                          "Failed to obtain from address")
           (fun fromAddress => bind (set_nonce (int64 (tx_Nonce tx)))
              (fun _ => bind (cmd.createSignedTransaction h c fromAddress (tx_To tx)
                                (tx_Value tx) (tx_Gas tx) (tx_Data tx))
                 (fun r => bind (cmd.ErrCheck r (cmd.quiet f)
                                   "Failed to create transaction")
                    (fun signedTx => ret (tx, signedTx)))))) s1.
Proof.
  intros Hstr Hf. eexists. split.
  - unfold cmd.transactionUpCmd_sign.
    apply String.eqb_neq in Hstr.
    unfold bind at 1. rewrite Hstr. simpl negb. cbv beta iota delta [cmd.Assert ret].
    unfold bind at 1. rewrite emit_record.
    unfold bind at 1. unfold up_txHash in Hf. rewrite Hf.
    cbv beta iota delta [cmd.ErrCheck ret]. reflexivity.
  - intros u s1. reflexivity.
Qed.





(** ** The offline path *)

(** The tail of both commands once the transaction is signed, with the
    offline flag set. *)
Lemma transactionUpCmd_offline (h : Host) (c : cmd.Client) (f : cmd.Flags)
    (s s1 : State) (tx signedTx : Transaction) :
  cmd.offline f = true ->
  cmd.transactionUpCmd_sign h c f s = (Ret (tx, signedTx), s1) ->
  cmd.transactionUpCmd h c f s =
  (Exit cmd._exit_success,
   if cmd.quiet f then s1 else record s1 [Printf (offline_line c signedTx)]).
Proof.
  intros Ho Hrun. unfold cmd.transactionUpCmd.
  unfold bind at 1. rewrite Hrun, Ho.
  destruct (cmd.quiet f); reflexivity.
Qed.

Lemma contractSendCmd_offline (h : Host) (c : cmd.Client) (f : cmd.Flags)
    (s s1 : State) (signedTx : Transaction) :
  cmd.offline f = true ->
  cmd.contractSendCmd_sign h c f s = (Ret signedTx, s1) ->
  cmd.contractSendCmd h c f s =
  (Exit cmd._exit_success,
   if cmd.quiet f then s1 else record s1 [Printf (offline_line c signedTx)]).
Proof.
  intros Ho Hrun. unfold cmd.contractSendCmd.
  unfold bind at 1. rewrite Hrun, Ho.
  destruct (cmd.quiet f); reflexivity.
Qed.

Lemma offline_outcome_printed (s1 : State) (line : string) :
  offline_outcome (Exit cmd._exit_success, record s1 [Printf line]) s1 [line].
Proof.
  unfold offline_outcome. simpl.
  rewrite stdout_app, broadcasts_app. simpl. rewrite app_nil_r. now repeat split.
Qed.

Lemma offline_outcome_silent (s1 : State) :
  offline_outcome (Exit cmd._exit_success, s1) s1 [].
Proof. unfold offline_outcome. simpl. rewrite app_nil_r. now repeat split. Qed.

(** C7, as amended: with the offline flag set and the quiet flag not
    set, once the transaction is signed both commands print exactly one
    line, "0x" followed by the hexadecimal form of the transaction's
    encoding and a newline, broadcast nothing, whatever the node would
    answer, and exit with the success code. *)
Theorem offline_emit_prints (h : Host) (c : cmd.Client) (f : cmd.Flags) (s : State) :
  cmd.offline f = true ->
  cmd.quiet f = false ->
  (forall tx signedTx s1,
     cmd.transactionUpCmd_sign h c f s = (Ret (tx, signedTx), s1) ->
     offline_outcome (cmd.transactionUpCmd h c f s) s1 [offline_line c signedTx]) /\
  (forall signedTx s1,
     cmd.contractSendCmd_sign h c f s = (Ret signedTx, s1) ->
     offline_outcome (cmd.contractSendCmd h c f s) s1 [offline_line c signedTx]).
Proof.
  intros Ho Hq. split.
  - intros tx signedTx s1 Hrun.
    rewrite (transactionUpCmd_offline h c f s s1 tx signedTx Ho Hrun), Hq.
    apply offline_outcome_printed.
  - intros signedTx s1 Hrun.
    rewrite (contractSendCmd_offline h c f s s1 signedTx Ho Hrun), Hq.
    apply offline_outcome_printed.
Qed.

Lemma offline_emit_prints_witness :
  stdout (trace (snd (cmd.transactionUpCmd linux_host (sample_client true)
                        (sample_flags true false "") initial)))
    = ["0x01020caf" ++ newline] /\
  stdout (trace (snd (cmd.contractSendCmd linux_host (sample_client true)
                        (sample_flags true false "") initial)))
    = ["0x0102a905" ++ newline].
Proof.
  pose proof (offline_emit_prints linux_host (sample_client true)
                (sample_flags true false "") initial eq_refl eq_refl) as [U S].
  split.
  - specialize (U pending_tx replacement_tx after_signing
                  ltac:(vm_compute; reflexivity)).
    exact (proj1 (proj2 (proj2 U))).
  - epose proof (S _ _ ltac:(vm_compute; reflexivity)) as S'.
    exact (proj1 (proj2 (proj2 S'))).
Defined.

Lemma offline_emit_claim_counterexample :
  ~ offline_emit_claim linux_host (sample_client true) (sample_flags true true "")
      initial.
Proof.
  intros H.
  specialize (H pending_tx replacement_tx after_signing eq_refl
                ltac:(vm_compute; reflexivity)).
  destruct H as (_ & _ & Hout & _). vm_compute in Hout. discriminate.
Qed.

(** C9: with both the offline and the quiet flag set, once the
    transaction is signed both commands exit with the success code and
    leave the state as the signing left it: nothing is printed, the
    encoded transaction appears nowhere, and nothing is broadcast. *)
Theorem offline_quiet_silent (h : Host) (c : cmd.Client) (f : cmd.Flags) (s : State) :
  cmd.offline f = true ->
  cmd.quiet f = true ->
  (forall tx signedTx s1,
     cmd.transactionUpCmd_sign h c f s = (Ret (tx, signedTx), s1) ->
     cmd.transactionUpCmd h c f s = (Exit cmd._exit_success, s1) /\
     offline_outcome (cmd.transactionUpCmd h c f s) s1 []) /\
  (forall signedTx s1,
     cmd.contractSendCmd_sign h c f s = (Ret signedTx, s1) ->
     cmd.contractSendCmd h c f s = (Exit cmd._exit_success, s1) /\
     offline_outcome (cmd.contractSendCmd h c f s) s1 []).
Proof.
  intros Ho Hq. split.
  - intros tx signedTx s1 Hrun.
    rewrite (transactionUpCmd_offline h c f s s1 tx signedTx Ho Hrun), Hq.
    split; [reflexivity | apply offline_outcome_silent].
  - intros signedTx s1 Hrun.
    rewrite (contractSendCmd_offline h c f s s1 signedTx Ho Hrun), Hq.
    split; [reflexivity | apply offline_outcome_silent].
Qed.

Lemma offline_quiet_silent_witness :
  cmd.transactionUpCmd linux_host (sample_client true) (sample_flags true true "")
    initial = (Exit 0, after_signing) /\
  stdout (trace (snd (cmd.contractSendCmd linux_host (sample_client true)
                        (sample_flags true true "") initial))) = [].
Proof.
  pose proof (offline_quiet_silent linux_host (sample_client true)
                (sample_flags true true "") initial eq_refl eq_refl) as [U S].
  split.
  - exact (proj1 (U pending_tx replacement_tx after_signing
                    ltac:(vm_compute; reflexivity))).
  - epose proof (S _ _ ltac:(vm_compute; reflexivity)) as S'.
    exact (proj1 (proj2 (proj2 (proj2 S')))).
Defined.

(** * Further properties of wallet.go *)

Lemma Find_Ok (wallets : list Wallet) (address : Address) (w : Wallet) :
  cli.Find wallets address = Ok w ->
  In w wallets /\ cli.Contains w address = true.
Proof.
  unfold cli.Find.
  destruct (find _ wallets) as [w'|] eqn:E; [|discriminate].
  intros H. injection H as <-. now apply find_some in E.
Qed.

Lemma DefaultDataDir_no_Err (h : Host) (e : error) : cli.DefaultDataDir h <> Err e.
Proof.
  unfold cli.DefaultDataDir, cli.windowsAppData.
  destruct (negb (cli.homeDir h =? "")%string); [|discriminate].
  destruct (GOOS h =? "darwin")%string; [discriminate|].
  destruct (GOOS h =? "windows")%string; [|discriminate].
  destruct (env_LOCALAPPDATA h =? "")%string; simpl; [discriminate|].
  destruct (_ || _); discriminate.
Qed.


Lemma DefaultDataDir_Panic (h : Host) (m : string) :
  cli.DefaultDataDir h = Panic m <->
  cli.homeDir h <> "" /\ GOOS h = "windows" /\ env_LOCALAPPDATA h = "" /\
  m = LocalAppData_panic.
Proof.
  unfold cli.DefaultDataDir, cli.windowsAppData.
  destruct (String.eqb_spec (cli.homeDir h) "") as [Eh|Eh]; simpl.
  { split; [discriminate | intros (H & _); congruence]. }
  destruct (String.eqb_spec (GOOS h) "darwin") as [Ed|Ed].
  { split; [discriminate | intros (_ & H & _); rewrite Ed in H; discriminate]. }
  destruct (String.eqb_spec (GOOS h) "windows") as [Ew|Ew].
  2:{ split; [discriminate | intros (_ & H & _); congruence]. }
  destruct (String.eqb_spec (env_LOCALAPPDATA h) "") as [El|El]; simpl.
  - split.
    + intros H. injection H as <-. now repeat split.
    + intros (_ & _ & _ & ->). reflexivity.
  - destruct (_ || _); (split; [discriminate | intros (_ & _ & H & _); congruence]).
Qed.

Lemma obtainGethWallets_Panic (h : Host) (chainID : Z) (m : string) :
  cli.obtainGethWallets h chainID = Panic m <-> cli.DefaultDataDir h = Panic m.
Proof.
  unfold cli.obtainGethWallets, cli.obtainGethWallets_keydir.
  destruct (cli.DefaultDataDir h); simpl; split; congruence.
Qed.

Lemma obtainGethWallet_Panic (h : Host) (chainID : Z) (address : Address) (m : string) :
  cli.obtainGethWallet h chainID address = Panic m <-> cli.DefaultDataDir h = Panic m.
Proof.
  unfold cli.obtainGethWallet, cli.obtainGethWallet_keydir, cli.Find.
  destruct (cli.DefaultDataDir h); simpl; [|split; congruence..].
  destruct (find _ _); split; discriminate.
Qed.

Lemma obtainParityWallet_no_panic (h : Host) (chainID : Z) (address : Address) m :
  cli.obtainParityWallet h chainID address <> Panic m.
Proof.
  rewrite obtainParityWallet_Find.
  destruct (cli.obtainParityWallets h chainID) eqn:E; try discriminate.
  - unfold cli.Find. destruct (find _ _); discriminate.
  - now apply obtainParityWallets_no_panic in E.
Qed.

Lemma obtainLedgerWallets_no_panic (h : Host) (chainID : Z) m :
  cli.obtainLedgerWallets h chainID <> Panic m.
Proof. unfold cli.obtainLedgerWallets. destruct (usbwallet_NewLedgerHub h); discriminate. Qed.

(** X1: listing and finding wallets panic in exactly one situation: on
    Windows, with a home directory and LOCALAPPDATA undefined; whether
    the legacy directory under the home directory exists plays no part,
    because [windowsAppData] runs before it is looked at. *)
Theorem wallet_lookup_panic (h : Host) (chainID : Z) (address : Address) (m : string) :
  (cli.ObtainWallets h chainID = Panic m <->
   LocalAppData_missing h /\ m = LocalAppData_panic) /\
  (cli.ObtainWallet h chainID address = Panic m <->
   LocalAppData_missing h /\ m = LocalAppData_panic).
Proof.
  assert (D : cli.DefaultDataDir h = Panic m <->
              LocalAppData_missing h /\ m = LocalAppData_panic).
  { rewrite DefaultDataDir_Panic. unfold LocalAppData_missing. tauto. }
  split; rewrite <- D.
  - rewrite <- (obtainGethWallets_Panic h chainID m). unfold cli.ObtainWallets.
    destruct (cli.obtainGethWallets h chainID) as [gs|e|m'];
      simpl; [|split; congruence..].
    destruct (cli.obtainParityWallets h chainID) as [ps|e|m'] eqn:Ep;
      simpl; [|split; congruence|now apply obtainParityWallets_no_panic in Ep].
    destruct (cli.obtainLedgerWallets h chainID) as [ls|e|m'] eqn:El;
      simpl; [split; congruence..|now apply obtainLedgerWallets_no_panic in El].
  - rewrite <- (obtainGethWallet_Panic h chainID address m). unfold cli.ObtainWallet.
    destruct (cli.obtainGethWallet h chainID address) as [w|e|m'];
      [split; congruence| |split; congruence].
    destruct (cli.obtainParityWallet h chainID address) as [w|e'|m'] eqn:Ep;
      [split; congruence..|now apply obtainParityWallet_no_panic in Ep].
Qed.

Lemma wallet_lookup_panic_witness :
  cli.isNonEmptyDir windows_host "C:\Users\alice\AppData\Roaming\Ethereum" = true /\
  cli.ObtainWallets windows_host MainnetChainID = Panic LocalAppData_panic /\
  cli.ObtainWallet windows_host MainnetChainID alice = Panic LocalAppData_panic.
Proof.
  split; [reflexivity|].
  destruct (wallet_lookup_panic windows_host MainnetChainID alice LocalAppData_panic)
    as [L F].
  split; [apply L | apply F];
    (split; [repeat split; discriminate | reflexivity]).
Defined.

(** X2: when neither HOME nor the current user gives a home directory,
    the geth keystore directory is a relative path on every operating
    system: "keystore", or the network's subdirectory followed by
    "keystore". *)
Theorem geth_keydir_without_home (h : Host) (chainID : Z) :
  env_HOME h = "" ->
  user_Current h = None \/ user_Current h = Some "" ->
  cli.DefaultDataDir h = Ok "" /\
  cli.obtainGethWallets_keydir h chainID =
    Ok (match geth_reachable_subdir chainID with
        | Some d => d ++ Separator (GOOS h) ++ "keystore"
        | None => "keystore"
        end) /\
  cli.obtainGethWallet_keydir h chainID = cli.obtainGethWallets_keydir h chainID.
Proof.
  intros HH HU.
  assert (E : cli.DefaultDataDir h = Ok "").
  { unfold cli.DefaultDataDir, cli.homeDir. rewrite HH. simpl.
    destruct HU as [-> | ->]; reflexivity. }
  split; [exact E|]. split; [|reflexivity].
  unfold cli.obtainGethWallets_keydir. rewrite E. simpl.
  rewrite obtainGethWallets_subdir_reachable.
  destruct (geth_reachable_subdir_cases chainID) as [S|[S|[S|S]]]; rewrite S;
    reflexivity.
Qed.

Lemma geth_keydir_without_home_witness :
  cli.obtainGethWallets_keydir homeless_host TestnetChainID = Ok "testnet/keystore" /\
  cli.obtainGethWallets_keydir homeless_host 246 = Ok "keystore".
Proof.
  split.
  - exact (proj1 (proj2 (geth_keydir_without_home homeless_host TestnetChainID
                           eq_refl (or_introl eq_refl)))).
  - exact (proj1 (proj2 (geth_keydir_without_home homeless_host 246
                           eq_refl (or_introl eq_refl)))).
Defined.

(** A wallet found by [ObtainWallet] comes from the listing of the geth
    keystore or from that of the Parity keystore. *)
Lemma ObtainWallet_found (h : Host) (chainID : Z) (address : Address) (w : Wallet) :
  cli.ObtainWallet h chainID address = Ok w ->
  (exists gs, cli.obtainGethWallets h chainID = Ok gs /\ In w gs /\
              cli.Contains w address = true) \/
  (exists ps, cli.obtainParityWallets h chainID = Ok ps /\ In w ps /\
              cli.Contains w address = true).
Proof.
  intros H. unfold cli.ObtainWallet in H.
  destruct (cli.obtainGethWallet h chainID address) as [w'|e|m] eqn:Eg;
    [|  |discriminate].
  - injection H as ->. left.
    destruct (cli.obtainGethWallets h chainID) as [gs|e|m] eqn:Egs.
    + exists gs. rewrite (obtainGethWallet_Find h chainID address gs Egs) in Eg.
      apply Find_Ok in Eg. tauto.
    + exfalso. unfold cli.obtainGethWallets, cli.obtainGethWallets_keydir in Egs.
      destruct (cli.DefaultDataDir h) eqn:Ed; simpl in Egs; try discriminate.
      injection Egs as ->. now apply DefaultDataDir_no_Err in Ed.
    + exfalso. apply obtainGethWallets_Panic in Egs.
      apply (obtainGethWallet_Panic h chainID address) in Egs. congruence.
  - right.
    destruct (cli.obtainParityWallet h chainID address) as [w'|e'|m] eqn:Ep;
      try discriminate.
    injection H as ->.
    rewrite obtainParityWallet_Find in Ep.
    destruct (cli.obtainParityWallets h chainID) as [ps|e''|m]; try discriminate.
    exists ps. apply Find_Ok in Ep. tauto.
Qed.

(** X3: a wallet found by [ObtainWallet] contains the address it was
    searched for, and is one of the wallets [ObtainWallets] lists
    whenever the listing succeeds. *)
Theorem ObtainWallet_listed (h : Host) (chainID : Z) (address : Address) (w : Wallet) :
  cli.ObtainWallet h chainID address = Ok w ->
  cli.Contains w address = true /\
  (forall wallets, cli.ObtainWallets h chainID = Ok wallets -> In w wallets).
Proof.
  intros H. pose proof (ObtainWallet_found h chainID address w H) as C.
  split; [destruct C as [(? & _ & _ & C) | (? & _ & _ & C)]; exact C|].
  intros wallets Hw. unfold cli.ObtainWallets in Hw.
  destruct (cli.obtainGethWallets h chainID) as [gs|e|m]; try discriminate.
  destruct (cli.obtainParityWallets h chainID) as [ps|e|m]; try discriminate.
  destruct (cli.obtainLedgerWallets h chainID) as [ls|e|m]; try discriminate.
  simpl in Hw. injection Hw as <-.
  destruct C as [(gs' & E & Hin & _) | (ps' & E & Hin & _)]; injection E as <-;
    rewrite !in_app_iff; tauto.
Qed.

Lemma ObtainWallet_listed_witness :
  cli.Contains alice_wallet alice = true /\
  In alice_wallet
    [alice_wallet;
     {| wallet_URL := "ledger://0001:0002:00"; Accounts := [bob_account] |}].
Proof.
  destruct (ObtainWallet_listed linux_host MainnetChainID alice alice_wallet eq_refl)
    as [C L].
  split; [exact C | exact (L _ eq_refl)].
Defined.

Lemma obtainParityWallets_Err (h : Host) (chainID : Z) (e : error) :
  cli.obtainParityWallets h chainID = Err e ->
  (exists e0, homedir_Dir h = inl e0) /\ e = "Failed to find home directory" \/
  (GOOS h <> "windows" /\ GOOS h <> "darwin" /\ GOOS h <> "linux") /\
  e = "Unsupported operating system".
Proof.
  unfold cli.obtainParityWallets, cli.obtainParityWallets_keydir,
    cli.obtainParityWallets_osdir.
  destruct (homedir_Dir h) as [e0|home].
  - simpl. intros H. injection H as <-. left. split; [now exists e0 | reflexivity].
  - destruct (String.eqb_spec (GOOS h) "windows"); [discriminate|].
    destruct (String.eqb_spec (GOOS h) "darwin"); [discriminate|].
    destruct (String.eqb_spec (GOOS h) "linux"); [discriminate|].
    simpl. intros H. injection H as <-. right. now repeat split.
Qed.

Lemma obtainGethWallets_no_Err (h : Host) (chainID : Z) (e : error) :
  cli.obtainGethWallets h chainID <> Err e.
Proof.
  unfold cli.obtainGethWallets, cli.obtainGethWallets_keydir.
  destruct (cli.DefaultDataDir h) eqn:Ed; simpl; try discriminate.
  intros H. injection H as ->. now apply DefaultDataDir_no_Err in Ed.
Qed.

(** X4: when [ObtainWallets] returns an error, it is one of three: the
    fixed message "Failed to find home directory" (the error of the home
    directory lookup itself is dropped), "Unsupported operating system"
    on a system other than Windows, macOS and Linux, or the error of the
    hardware hub's creation, passed on unchanged.  The geth keystore
    never contributes an error. *)
Theorem ObtainWallets_errors (h : Host) (chainID : Z) (e : error) :
  cli.ObtainWallets h chainID = Err e ->
  ((exists e0, homedir_Dir h = inl e0) /\ e = "Failed to find home directory") \/
  ((GOOS h <> "windows" /\ GOOS h <> "darwin" /\ GOOS h <> "linux") /\
   e = "Unsupported operating system") \/
  usbwallet_NewLedgerHub h = inl e.
Proof.
  unfold cli.ObtainWallets.
  destruct (cli.obtainGethWallets h chainID) as [gs|e'|m] eqn:Eg; simpl;
    [|intros _; now apply obtainGethWallets_no_Err in Eg|discriminate].
  destruct (cli.obtainParityWallets h chainID) as [ps|e'|m] eqn:Ep; simpl;
    [| |discriminate].
  - unfold cli.obtainLedgerWallets.
    destruct (usbwallet_NewLedgerHub h) as [e'|devices]; simpl; [|discriminate].
    intros H. injection H as ->. now right; right.
  - intros H. injection H as ->.
    apply obtainParityWallets_Err in Ep. tauto.
Qed.

Lemma ObtainWallets_errors_witness :
  usbwallet_NewLedgerHub hubless_host = inl "unsupported platform" /\
  (GOOS freebsd_host <> "linux" /\
   cli.ObtainWallets freebsd_host MainnetChainID = Err "Unsupported operating system").
Proof.
  split.
  - destruct (ObtainWallets_errors hubless_host MainnetChainID "unsupported platform"
                eq_refl) as [[_ H] | [[_ H] | H]]; [discriminate H.. | exact H].
  - destruct (ObtainWallets_errors freebsd_host MainnetChainID
                "Unsupported operating system" eq_refl)
      as [[[e0 H] _] | [[(_ & _ & H) _] | H]]; [discriminate H | | discriminate H].
    split; [exact H | reflexivity].
Defined.

(** X5: on an operating system other than Windows, macOS and Linux,
    with a home directory, listing the wallets always fails with
    "Unsupported operating system", yet finding a wallet still succeeds
    for every address the geth keystore holds: [ObtainWallet] discards
    the error of the Parity search that [ObtainWallets] returns. *)
Theorem unsupported_os_finds_but_cannot_list (h : Host) (chainID : Z)
    (address : Address) (home : string) :
  GOOS h <> "windows" -> GOOS h <> "darwin" -> GOOS h <> "linux" ->
  homedir_Dir h = inr home ->
  cli.ObtainWallets h chainID = Err "Unsupported operating system" /\
  (forall w, cli.obtainGethWallet h chainID address = Ok w ->
             cli.ObtainWallet h chainID address = Ok w) /\
  (forall e, cli.obtainGethWallet h chainID address = Err e ->
             cli.ObtainWallet h chainID address = Err (WalletNotFound h address)).
Proof.
  intros W D L Hh.
  assert (P : cli.obtainParityWallets h chainID = Err "Unsupported operating system").
  { unfold cli.obtainParityWallets, cli.obtainParityWallets_keydir,
      cli.obtainParityWallets_osdir. rewrite Hh.
    apply String.eqb_neq in W, D, L. now rewrite W, D, L. }
  split; [|split].
  - unfold cli.ObtainWallets. rewrite P.
    destruct (cli.obtainGethWallets h chainID) as [gs|e|m] eqn:Eg; simpl.
    + reflexivity.
    + now apply obtainGethWallets_no_Err in Eg.
    + apply obtainGethWallets_Panic, DefaultDataDir_Panic in Eg.
      destruct Eg as (_ & Eg & _). congruence.
  - intros w Hw. unfold cli.ObtainWallet. now rewrite Hw.
  - intros e He. unfold cli.ObtainWallet. rewrite He, obtainParityWallet_Find, P.
    reflexivity.
Qed.

Lemma unsupported_os_finds_but_cannot_list_witness :
  cli.ObtainWallets freebsd_host MainnetChainID = Err "Unsupported operating system" /\
  cli.ObtainWallet freebsd_host MainnetChainID alice = Ok alice_wallet.
Proof.
  destruct (unsupported_os_finds_but_cannot_list freebsd_host MainnetChainID alice
              "/home/alice") as (L & F & _); try discriminate; try reflexivity.
  split; [exact L | exact (F alice_wallet eq_refl)].
Defined.

(** ** [ObtainWalletAndAccount] *)

Lemma Contains_find (w : Wallet) (address : Address) :
  cli.Contains w address = true ->
  exists account,
    find (fun a => Address_eqb address (acc_Address a)) (Accounts w) = Some account.
Proof.
  unfold cli.Contains. intros H. apply existsb_exists in H.
  destruct H as (a & Hin & E). apply Address_eqb_eq in E.
  destruct (find (fun a => Address_eqb address (acc_Address a)) (Accounts w))
    as [account|] eqn:F; [now exists account|].
  exfalso. apply (find_none _ _ F) in Hin. simpl in Hin.
  rewrite E, Address_eqb_refl in Hin. discriminate.
Qed.

(** Every run of [ObtainAccount], by what the search finds. *)
Lemma ObtainAccount_cases (h : Host) (wallet : Wallet) (address : Address)
    (passphrase : string) (s : State) :
  match find (fun a => Address_eqb address (acc_Address a)) (Accounts wallet) with
  | None =>
      cli.ObtainAccount h wallet address passphrase s
      = (Ret (inl "account not found"), s)
  | Some account =>
      (passphrase = "" /\
       cli.ObtainAccount h wallet address passphrase s = (Ret (inr account), s)) \/
      (passphrase <> "" /\
       cli.ObtainAccount h wallet address passphrase s
       = (Ret (inr account),
          record s [verification_request wallet account passphrase])) \/
      (passphrase <> "" /\
       cli.ObtainAccount h wallet address passphrase s
       = (Ret (inl "invalid passphrase"),
          record s [verification_request wallet account passphrase;
                    Printf ("Verifying passphrase" ++ newline)]))
  end.
Proof.
  unfold cli.ObtainAccount. rewrite ObtainAccount_loop_find.
  destruct (find _ (Accounts wallet)) as [account|] eqn:Hf; [|reflexivity].
  pose proof (find_address_some _ _ _ Hf) as [_ E].
  simpl. rewrite <- E, Address_eqb_refl.
  destruct (String.eqb_spec passphrase "") as [Hp|Hp]; simpl.
  - left. now split.
  - right. unfold cli.VerifyPassphrase, bind. rewrite emit_record.
    destruct (SignDataWithPassphrase h wallet account passphrase _ _); simpl.
    + right. split; [assumption|]. unfold ret, record. simpl.
      now rewrite <- app_assoc.
    + left. now split.
Qed.

(** X6: [ObtainWalletAndAccount] never fails with "account not found":
    the wallet [ObtainWallet] returns always holds the address.  Its
    error is either that of [ObtainWallet], with nothing requested from
    any wallet, or "invalid passphrase", which needs a non-empty
    passphrase flag.  On success the account has the address asked for
    and belongs to the wallet found; with an empty passphrase flag the
    state is untouched. *)
Theorem ObtainWalletAndAccount_resolves (h : Host) (chainID : Z) (address : Address)
    (s : State) :
  (forall wallet account s',
     cli.ObtainWalletAndAccount h chainID address s = (Ret (inr (wallet, account)), s') ->
     cli.ObtainWallet h chainID address = Ok wallet /\
     In account (Accounts wallet) /\
     acc_Address account = address /\
     (viper_passphrase h = "" -> s' = s)) /\
  (forall e s',
     cli.ObtainWalletAndAccount h chainID address s = (Ret (inl e), s') ->
     e <> "account not found" /\
     (e = WalletNotFound h address /\ s' = s \/
      e = "invalid passphrase" /\ viper_passphrase h <> "")).
Proof.
  unfold cli.ObtainWalletAndAccount, bind.
  destruct (cli.ObtainWallet h chainID address) as [w|e0|m] eqn:Ew; simpl.
  - assert (C : cli.Contains w address = true).
    { destruct (ObtainWallet_found h chainID address w Ew)
        as [(? & _ & _ & C) | (? & _ & _ & C)]; exact C. }
    apply Contains_find in C. destruct C as (account & F).
    pose proof (ObtainAccount_cases h w address (viper_passphrase h) s) as A.
    rewrite F in A. apply find_address_some in F. destruct F as [Hin Ea].
    destruct A as [[Hp ->] | [[Hp ->] | [Hp ->]]]; simpl; split.
    + intros wallet acc s' H. injection H as <- <- <-. now repeat split.
    + discriminate.
    + intros wallet acc s' H. injection H as <- <- <-. repeat split; tauto.
    + discriminate.
    + discriminate.
    + intros e s' H. injection H as <- <-.
      split; [discriminate | right; now split].
  - split; [discriminate|].
    intros e s' H. injection H as <- <-.
    unfold cli.ObtainWallet in Ew.
    destruct (cli.obtainGethWallet h chainID address); try discriminate.
    destruct (cli.obtainParityWallet h chainID address); try discriminate.
    injection Ew as <-. split; [discriminate | left; now split].
  - split; discriminate.
Qed.

Lemma ObtainWalletAndAccount_resolves_witness :
  cli.ObtainWallet linux_host MainnetChainID alice = Ok alice_wallet /\
  WalletNotFound linux_host bob <> "account not found".
Proof.
  destruct (ObtainWalletAndAccount_resolves linux_host MainnetChainID alice initial)
    as [S _].
  destruct (ObtainWalletAndAccount_resolves linux_host MainnetChainID bob initial)
    as [_ F].
  split.
  - exact (proj1 (S alice_wallet alice_account initial eq_refl)).
  - exact (proj1 (F _ initial eq_refl)).
Defined.

(** * Further properties of the commands *)

(** ** Composition of what runs emit *)

Lemma emits_only_impl {A} (P Q : Event -> Prop) (m : M A) :
  (forall e, P e -> Q e) -> emits_only P m -> emits_only Q m.
Proof.
  intros PQ H s. destruct (H s) as (events & T & F).
  exists events. split; [exact T|]. now apply (Forall_impl Q PQ).
Qed.

Lemma emits_only_silent {A} (P : Event -> Prop) (m : M A) :
  (forall s, trace (snd (m s)) = trace s) -> emits_only P m.
Proof.
  intros H s. exists []. rewrite H, app_nil_r. now split.
Qed.

Lemma emits_only_ret {A} (P : Event -> Prop) (a : A) : emits_only P (ret a).
Proof. now apply emits_only_silent. Qed.

Lemma emits_only_bind {A B} (P : Event -> Prop) (m : M A) (k : A -> M B) :
  emits_only P m -> (forall a, emits_only P (k a)) -> emits_only P (bind m k).
Proof.
  intros Hm Hk s. unfold bind.
  destruct (Hm s) as (e1 & T1 & F1).
  destruct (m s) as [[a|code|msg|msg] s1]; simpl in T1;
    try (exists e1; now split).
  destruct (Hk a s1) as (e2 & T2 & F2).
  exists (e1 ++ e2)%list. split.
  - now rewrite T2, T1, app_assoc.
  - apply Forall_app. now split.
Qed.

Lemma emits_only_emit (P : Event -> Prop) (e : Event) : P e -> emits_only P (emit e).
Proof. intros H s. exists [e]. split; [reflexivity | now constructor]. Qed.

Lemma emits_only_Assert (P : Event -> Prop) (condition quiet : bool) (msg : string) :
  emits_only P (cmd.Assert condition quiet msg).
Proof. apply emits_only_silent. intros s. now destruct condition. Qed.

Lemma emits_only_ErrCheck {A} (P : Event -> Prop) (r : error + A) (quiet : bool)
    (msg : string) :
  emits_only P (cmd.ErrCheck r quiet msg).
Proof. apply emits_only_silent. intros s. now destruct r. Qed.

Lemma emits_only_external {A} (P : Event -> Prop) (r : Res A) :
  emits_only P (cmd.external r).
Proof. now apply emits_only_silent. Qed.

Lemma emits_only_lift {A} (P : Event -> Prop) (r : result A) : emits_only P (lift r).
Proof. apply emits_only_silent. intros s. now destruct r. Qed.

Lemma ObtainAccount_emits (h : Host) (wallet : Wallet) (address : Address)
    (passphrase : string) :
  emits_only signing_event (cli.ObtainAccount h wallet address passphrase).
Proof.
  intros s. pose proof (ObtainAccount_cases h wallet address passphrase s) as C.
  destruct (find _ (Accounts wallet)) as [account|].
  - destruct C as [[_ ->] | [[_ ->] | [_ ->]]]; simpl.
    + exists []. now rewrite app_nil_r.
    + eexists. split; [reflexivity|]. repeat constructor.
    + eexists. split; [reflexivity|]. repeat constructor.
  - rewrite C. exists []. now rewrite app_nil_r.
Qed.

Ltac emits :=
  repeat first
    [ apply ObtainAccount_emits
    | apply emits_only_ret
    | apply emits_only_Assert
    | apply emits_only_ErrCheck
    | apply emits_only_external
    | apply emits_only_lift
    | apply emits_only_emit; simpl; solve [auto]
    | apply emits_only_silent; intros ?; reflexivity
    | apply emits_only_bind; [|intros ?]
    | match goal with
      | |- emits_only _ (match ?x with _ => _ end) => destruct x
      | |- emits_only _ (if ?b then _ else _) => destruct b
      end ].

Lemma createSignedTransaction_emits (h : Host) (c : cmd.Client) (fromAddress : Address)
    (toAddress : option Address) (amount gasLimit : Z) (data : list byte) :
  emits_only signing_event
    (cmd.createSignedTransaction h c fromAddress toAddress amount gasLimit data).
Proof.
  unfold cmd.createSignedTransaction, cli.ObtainWalletAndAccount.
  emits.
Qed.

Lemma transactionUpCmd_sign_emits (h : Host) (c : cmd.Client) (f : cmd.Flags) :
  emits_only signing_event (cmd.transactionUpCmd_sign h c f).
Proof.
  unfold cmd.transactionUpCmd_sign.
  emits.
Qed.

Lemma contractSendCmd_sign_emits (h : Host) (c : cmd.Client) (f : cmd.Flags) :
  emits_only signing_event (cmd.contractSendCmd_sign h c f).
Proof.
  unfold cmd.contractSendCmd_sign.
  emits.
Qed.



(** ** Gas price and nonce of the replacement *)

(** X7: the minimum replacement price m computed from a gas price g is
    just over ten per cent above it: 11 g < 10 m <= 11 g + 10.  It grows
    with g, and it exceeds g exactly when g is not negative. *)
Theorem minGasPrice_bump (tx : Transaction) :
  11 * tx_GasPrice tx < 10 * cmd.minGasPrice tx <= 11 * tx_GasPrice tx + 10 /\
  (tx_GasPrice tx < cmd.minGasPrice tx <-> 0 <= tx_GasPrice tx) /\
  (forall tx', tx_GasPrice tx <= tx_GasPrice tx' ->
               cmd.minGasPrice tx <= cmd.minGasPrice tx').
Proof.
  rewrite minGasPrice_eq.
  pose proof (Z.div_mod (tx_GasPrice tx) 10 ltac:(lia)) as D.
  pose proof (Z.mod_pos_bound (tx_GasPrice tx) 10 ltac:(lia)) as B.
  split; [lia|]. split; [split; intros; lia|].
  intros tx' Hle. rewrite minGasPrice_eq.
  pose proof (Z.div_le_mono (tx_GasPrice tx) (tx_GasPrice tx') 10 ltac:(lia) Hle).
  lia.
Qed.

Lemma minGasPrice_bump_witness :
  cmd.minGasPrice pending_tx <= cmd.minGasPrice replacement_tx.
Proof.
  apply (proj2 (proj2 (minGasPrice_bump pending_tx)) replacement_tx).
  simpl. lia.
Defined.

Lemma int64_range (u : Z) : - 2 ^ 63 <= int64 u < 2 ^ 63.
Proof.
  unfold int64. pose proof (Z.mod_pos_bound u (2 ^ 64) ltac:(lia)).
  destruct (u mod 2 ^ 64 <? 2 ^ 63) eqn:E;
    [apply Z.ltb_lt in E | apply Z.ltb_ge in E]; lia.
Qed.

(** X8: a run of the "up" command that reaches the signed replacement
    leaves the package-level nonce in the int64 range; it is the nonce
    of the replaced transaction when that is below 2^63, and the
    negative number nonce - 2^64 otherwise. *)
Theorem replacement_nonce_variable (h : Host) (c : cmd.Client) (f : cmd.Flags)
    (s s' : State) (tx signedTx : Transaction) :
  0 <= tx_Nonce tx < 2 ^ 64 ->
  cmd.transactionUpCmd_sign h c f s = (Ret (tx, signedTx), s') ->
  exists n,
    nonce s' = Some n /\ - 2 ^ 63 <= n < 2 ^ 63 /\
    (tx_Nonce tx < 2 ^ 63 -> n = tx_Nonce tx) /\
    (2 ^ 63 <= tx_Nonce tx -> n = tx_Nonce tx - 2 ^ 64 /\ n < 0).
Proof.
  intros Hn Hrun. apply transactionUpCmd_sign_ok in Hrun. cbv zeta in Hrun.
  destruct Hrun as (_ & _ & price & wallet & account & sig & events & Hrun).
  destruct Hrun as (_ & _ & _ & _ & _ & _ & _ & _ & Hnonce).
  exists (int64 (tx_Nonce tx)). split; [exact Hnonce|].
  split; [apply int64_range|].
  unfold int64. rewrite (Z.mod_small (tx_Nonce tx)) by assumption.
  split; intros H.
  - apply Z.ltb_lt in H. now rewrite H.
  - assert (E : (tx_Nonce tx <? 2 ^ 63) = false) by (apply Z.ltb_ge; lia).
    rewrite E. lia.
Qed.

Lemma replacement_nonce_variable_witness : nonce after_signing = Some 7.
Proof.
  destruct (replacement_nonce_variable linux_host (sample_client true)
              (sample_flags false false "") initial after_signing pending_tx
              replacement_tx ltac:(simpl; lia) ltac:(vm_compute; reflexivity))
    as (n & Hn & _ & Hsmall & _).
  rewrite Hn. f_equal. apply Hsmall. simpl. lia.
Defined.

(** ** Failures before the signing *)

(** X9: the "up" command checks its input in order.  Without
    --transaction it stops with "--transaction is required" having done
    nothing; when the lookup fails it stops with "Failed to obtain
    transaction" after the lookup alone; when the sender cannot be
    recovered from a pending transaction it stops with "Failed to obtain
    from address", nothing having been signed or broadcast. *)
Theorem transactionUp_fails_early (h : Host) (c : cmd.Client) (f : cmd.Flags) (s : State) :
  (cmd.transactionStr f = "" ->
   cmd.transactionUpCmd h c f s = (Fatal "--transaction is required", s)) /\
  (forall e,
     cmd.transactionStr f <> "" ->
     cmd.TransactionByHash c (up_txHash c f) = inl e ->
     cmd.transactionUpCmd h c f s
     = (Fatal ("Failed to obtain transaction " ++ cmd.Hash_Hex c (up_txHash c f)),
        record s [TransactionByHash_call (up_txHash c f)])) /\
  (forall tx e,
     cmd.transactionStr f <> "" ->
     cmd.TransactionByHash c (up_txHash c f) = inr (tx, true) ->
     cmd.viper_gasprice f = "" ->
     cmd.txFrom c tx = inl e ->
     cmd.transactionUpCmd h c f s
     = (Fatal "Failed to obtain from address",
        {| trace := (trace s ++ [TransactionByHash_call (up_txHash c f)])%list;
           gasPrice := Some (cmd.minGasPrice tx);
           nonce := nonce s |})).
Proof.
  split; [|split].
  - intros E. apply transactionUpCmd_stops.
    unfold cmd.transactionUpCmd_sign, bind. now rewrite E.
  - intros e Hstr Hf. apply transactionUpCmd_stops.
    unfold cmd.transactionUpCmd_sign. apply String.eqb_neq in Hstr.
    unfold bind at 1. rewrite Hstr. simpl negb. cbv beta iota delta [cmd.Assert ret].
    unfold bind at 1. rewrite emit_record.
    unfold bind at 1. unfold up_txHash in Hf. rewrite Hf. reflexivity.
  - intros tx e Hstr Hf Hg He.
    destruct (transactionUpCmd_sign_start h c f s tx true Hstr Hf) as (k & Hk & Hk2).
    assert (E : cmd.transactionUpCmd_sign h c f s
                = (Fatal "Failed to obtain from address",
                   {| trace := (trace s ++ [TransactionByHash_call (up_txHash c f)])%list;
                      gasPrice := Some (cmd.minGasPrice tx);
                      nonce := nonce s |})).
    { rewrite Hk. unfold bind at 1. cbv beta iota delta [cmd.Assert ret]. rewrite Hk2.
      rewrite Hg. simpl. unfold bind at 1. unfold set_gasPrice.
      unfold bind at 1. rewrite He. reflexivity. }
    exact (transactionUpCmd_stops h c f s _ _ E).
Qed.

Lemma transactionUp_fails_early_witness :
  cmd.transactionUpCmd linux_host (sample_client true) no_transaction_flags initial
  = (Fatal "--transaction is required", initial).
Proof.
  apply (transactionUp_fails_early linux_host (sample_client true)). reflexivity.
Defined.

(** X10: "contract send" checks its input in order.  Without --from it
    stops with "--from is required" having done nothing; with a resolved
    sender and no --call it stops with "--call is required"; and a
    missing --contract is noticed only after the call has been parsed
    and packed against [parseContract ""], when the packed data has
    already been handed to [outputIf]. *)
Theorem contractSend_fails_early (h : Host) (c : cmd.Client) (f : cmd.Flags) (s : State) :
  (cmd.contractSendFromAddress f = "" ->
   cmd.contractSendCmd h c f s = (Fatal "--from is required", s)) /\
  (forall fromAddress,
     cmd.contractSendFromAddress f <> "" ->
     cmd.ens_Resolve c (cmd.contractSendFromAddress f) = inr fromAddress ->
     cmd.contractSendCall f = "" ->
     cmd.contractSendCmd h c f s = (Fatal "--call is required", s)) /\
  (forall fromAddress contract method methodArgs data,
     cmd.contractSendFromAddress f <> "" ->
     cmd.ens_Resolve c (cmd.contractSendFromAddress f) = inr fromAddress ->
     cmd.contractSendCall f <> "" ->
     cmd.parseContract c "" = Ret contract ->
     cmd.ParseCall c contract (cmd.contractSendCall f) = inr (method, methodArgs) ->
     cmd.Abi_Pack c contract (cmd.method_Name method) methodArgs = inr data ->
     cmd.contractStr f = "" ->
     cmd.contractSendCmd h c f s
     = (Fatal "--contract is required",
        record s [outputIf_call (cmd.verbose f)
                    ("Data is " ++ hex_EncodeToString data)])).
Proof.
  split; [|split].
  - intros E. unfold cmd.contractSendCmd, cmd.contractSendCmd_sign, bind.
    now rewrite E.
  - intros fromAddress Hfrom Hres Hcall.
    apply String.eqb_neq in Hfrom.
    unfold cmd.contractSendCmd, cmd.contractSendCmd_sign, bind.
    now rewrite Hfrom, Hres, Hcall.
  - intros fromAddress contract method methodArgs data
      Hfrom Hres Hcall Hcontract Hparse Hpack Hstr.
    apply String.eqb_neq in Hfrom, Hcall.
    unfold cmd.contractSendCmd, cmd.contractSendCmd_sign, bind.
    rewrite Hfrom, Hres, Hcall. simpl. unfold cmd.external. rewrite Hcontract.
    rewrite Hparse. simpl. rewrite Hpack. simpl. rewrite Hstr. reflexivity.
Qed.

Lemma contractSend_fails_early_witness :
  cmd.contractSendCmd linux_host (sample_client true) no_contract_flags initial
  = (Fatal "--contract is required", record initial [outputIf_call true "Data is a905"]).
Proof.
  apply (proj2 (proj2 (contractSend_fails_early linux_host (sample_client true)
                         no_contract_flags initial))
           alice {| cmd.contract_Name := "erc20"; cmd.contract_Abi := "[]" |}
           {| cmd.method_Name := "transfer" |} [] [xa9; x05]);
    (reflexivity || discriminate).
Defined.

(** ** The transaction of "contract send" *)



(** ** After the signing: broadcast and hand-over *)





(** ** What no run does *)

Lemma local_broadcasts (events : list Event) :
  Forall local_event events -> broadcasts events = [].
Proof.
  induction 1 as [|e events He _ IH]; [reflexivity|].
  destruct e; simpl in *; (assumption || contradiction).
Qed.

Lemma signing_event_local (e : Event) : signing_event e -> local_event e.
Proof. destruct e; simpl; auto. Qed.


(** X13: with the offline flag set, no run of either command, however
    it ends, broadcasts a transaction or reaches
    [handleSubmittedTransaction]. *)
Theorem offline_never_submits (h : Host) (c : cmd.Client) (f : cmd.Flags) :
  cmd.offline f = true ->
  emits_only local_event (cmd.transactionUpCmd h c f) /\
  emits_only local_event (cmd.contractSendCmd h c f).
Proof.
  intros Ho. split.
  - unfold cmd.transactionUpCmd. apply emits_only_bind.
    + apply (emits_only_impl _ _ _ signing_event_local), transactionUpCmd_sign_emits.
    + intros [tx signedTx]. rewrite Ho. intros s.
      unfold bind, os_Exit. destruct (cmd.quiet f); simpl.
      * exists []. now rewrite app_nil_r.
      * eexists. split; [reflexivity|]. now repeat constructor.
  - unfold cmd.contractSendCmd. apply emits_only_bind.
    + apply (emits_only_impl _ _ _ signing_event_local), contractSendCmd_sign_emits.
    + intros signedTx. rewrite Ho. intros s.
      unfold bind, os_Exit. destruct (cmd.quiet f); simpl.
      * exists []. now rewrite app_nil_r.
      * eexists. split; [reflexivity|]. now repeat constructor.
Qed.

Lemma offline_never_submits_witness :
  broadcasts (trace (snd (cmd.transactionUpCmd linux_host (sample_client true)
                            (sample_flags true false "") initial))) = [].
Proof.
  destruct (offline_never_submits linux_host (sample_client true)
              (sample_flags true false "") eq_refl) as [U _].
  destruct (U initial) as (events & T & F).
  rewrite T. simpl. now apply local_broadcasts.
Defined.





(** * Properties of transactioninfo.go *)

(** ** Hexadecimal round trip *)

Lemma hex_byte_roundtrip (v : byte) :
  fromHexChar (hexdigit (N.shiftr (to_N v) 4)) = Some (N.shiftr (to_N v) 4) /\
  fromHexChar (hexdigit (N.land (to_N v) 15)) = Some (N.land (to_N v) 15) /\
  of_N (N.lor (N.shiftl (N.shiftr (to_N v) 4) 4) (N.land (to_N v) 15)) = Some v.
Proof. destruct v; vm_compute; repeat split. Qed.

Lemma hex_roundtrip (bytes : list byte) :
  hex_DecodeString (hex_EncodeToString bytes) = inr bytes.
Proof.
  induction bytes as [|v rest IH]; [reflexivity|].
  destruct (hex_byte_roundtrip v) as (Hh & Hl & Hv).
  cbn [hex_EncodeToString hex_DecodeString]. rewrite Hh, Hl, IH, Hv. reflexivity.
Qed.

Lemma hex_length (bytes : list byte) :
  String.length (hex_EncodeToString bytes) = (2 * List.length bytes)%nat.
Proof.
  induction bytes as [|v rest IH]; [reflexivity|].
  cbn [hex_EncodeToString String.length List.length]. rewrite IH. lia.
Qed.

Lemma substring_all (s : string) : substring 0 (String.length s) s = s.
Proof. induction s as [|ch s IH]; simpl; [reflexivity | now rewrite IH]. Qed.

Lemma TrimPrefix_0x (s : string) : strings_TrimPrefix ("0x" ++ s) "0x" = s.
Proof.
  unfold strings_TrimPrefix. simpl.
  assert (E : String.prefix "" s = true) by now destruct s.
  rewrite E, Nat.sub_0_r. apply substring_all.
Qed.

(** ** The lookup and the early exits *)

Lemma transactionInfoCmd_lookup_raw (c : cmd.Client) (e : transactioninfo.Env)
    (f : cmd.Flags) (s : State) (data : list byte) (tx : Transaction) :
  (66 < String.length (cmd.transactionStr f))%nat ->
  hex_DecodeString (strings_TrimPrefix (cmd.transactionStr f) "0x") = inr data ->
  transactioninfo.DecodeRLP e data = inr tx ->
  transactioninfo.transactionInfoCmd_lookup c e f s
  = (Ret (transactioninfo.tx_Hash e tx, false, tx), s).
Proof.
  intros Hlen Hhex Hrlp. unfold transactioninfo.transactionInfoCmd_lookup.
  assert (Hne : (cmd.transactionStr f =? "")%string = false).
  { apply String.eqb_neq. intros E. rewrite E in Hlen. simpl in Hlen. lia. }
  apply Nat.ltb_lt in Hlen.
  unfold bind at 1. rewrite Hne. simpl. rewrite Hlen.
  unfold bind at 1. rewrite Hhex. simpl.
  unfold bind. rewrite Hrlp. reflexivity.
Qed.

(** X16: the line the offline path of "transaction up" and "contract
    send" prints can be fed back to "transaction info --raw": for a
    transaction whose encoding is longer than 32 bytes and that the RLP
    decoder reads back, the command prints the very same line and exits
    with the success code, without looking anything up on the node. *)
Theorem info_echoes_offline_output (c : cmd.Client) (e : transactioninfo.Env)
    (f : cmd.Flags) (g : transactioninfo.InfoFlags) (s : State)
    (signedTx : Transaction) :
  cmd.quiet f = false ->
  transactioninfo.transactionInfoRaw g = true ->
  cmd.transactionStr f = "0x" ++ hex_EncodeToString (cmd.EncodeRLP c signedTx) ->
  (32 < List.length (cmd.EncodeRLP c signedTx))%nat ->
  transactioninfo.DecodeRLP e (cmd.EncodeRLP c signedTx) = inr signedTx ->
  transactioninfo.transactionInfoCmd c e f g s
  = (Exit cmd._exit_success, record s [Printf (offline_line c signedTx)]).
Proof.
  intros Hq Hraw Hstr Hlen Hrlp.
  assert (L : transactioninfo.transactionInfoCmd_lookup c e f s
              = (Ret (transactioninfo.tx_Hash e signedTx, false, signedTx), s)).
  { apply (transactionInfoCmd_lookup_raw c e f s (cmd.EncodeRLP c signedTx)).
    - rewrite Hstr. cbn [append String.length]. rewrite hex_length. lia.
    - rewrite Hstr, TrimPrefix_0x. apply hex_roundtrip.
    - exact Hrlp. }
  unfold transactioninfo.transactionInfoCmd.
  unfold bind at 1. rewrite L, Hq, Hraw. reflexivity.
Qed.

Lemma info_echoes_offline_output_witness :
  transactioninfo.transactionInfoCmd (sample_client true) sample_info_env
    (flags_for ("0x" ++ hex_EncodeToString (cmd.EncodeRLP (sample_client true) long_tx))
       false)
    (info_flags true true) initial
  = (Exit 0, record initial [Printf (offline_line (sample_client true) long_tx)]).
Proof.
  apply (info_echoes_offline_output (sample_client true) sample_info_env);
    try reflexivity.
  vm_compute. lia.
Defined.

Lemma lookup_stdout (events : list Event) :
  Forall lookup_event events -> stdout events = [].
Proof.
  induction 1 as [|e events He _ IH]; [reflexivity|].
  destruct e; simpl in *; (assumption || contradiction).
Qed.

Lemma transactionInfoCmd_lookup_emits (c : cmd.Client) (e : transactioninfo.Env)
    (f : cmd.Flags) :
  emits_only lookup_event (transactioninfo.transactionInfoCmd_lookup c e f).
Proof. unfold transactioninfo.transactionInfoCmd_lookup. emits. Qed.

Lemma transactionInfoCmd_lookup_ends (c : cmd.Client) (e : transactioninfo.Env)
    (f : cmd.Flags) (s : State) :
  (exists r, fst (transactioninfo.transactionInfoCmd_lookup c e f s) = Ret r) \/
  (exists msg, fst (transactioninfo.transactionInfoCmd_lookup c e f s) = Fatal msg).
Proof.
  unfold transactioninfo.transactionInfoCmd_lookup, bind, cmd.Assert, cmd.ErrCheck.
  destruct (negb _); simpl; [|right; eauto].
  destruct (66 <? _)%nat.
  - destruct (hex_DecodeString _); simpl; [right; eauto|].
    destruct (transactioninfo.DecodeRLP e _); simpl; [right|left]; eauto.
  - simpl. destruct (cmd.TransactionByHash c _) as [err|[tx pending]]; simpl;
      [right|left]; eauto.
Qed.

(** X17: in quiet mode "transaction info" prints nothing, whatever the
    other flags, and its exit status tells whether the transaction
    exists: 0 when the raw input decodes or the node returns the
    transaction, 1 otherwise. *)
Theorem info_quiet (c : cmd.Client) (e : transactioninfo.Env) (f : cmd.Flags)
    (g : transactioninfo.InfoFlags) (s : State) :
  cmd.quiet f = true ->
  stdout (trace (snd (transactioninfo.transactionInfoCmd c e f g s)))
    = stdout (trace s) /\
  ((exists r, fst (transactioninfo.transactionInfoCmd_lookup c e f s) = Ret r) /\
   exit_status (fst (transactioninfo.transactionInfoCmd c e f g s)) = Some 0 \/
   (exists msg, fst (transactioninfo.transactionInfoCmd_lookup c e f s) = Fatal msg) /\
   exit_status (fst (transactioninfo.transactionInfoCmd c e f g s)) = Some 1).
Proof.
  intros Hq.
  destruct (transactionInfoCmd_lookup_emits c e f s) as (events & T & F).
  pose proof (transactionInfoCmd_lookup_ends c e f s) as O.
  unfold transactioninfo.transactionInfoCmd, bind.
  destruct (transactioninfo.transactionInfoCmd_lookup c e f s)
    as [[[[txHash pending] tx]|code|msg|msg] s1]; simpl in *;
    rewrite ?Hq; simpl; rewrite T, stdout_app, (lookup_stdout _ F), app_nil_r.
  - split; [reflexivity|]. left. split; [eauto | reflexivity].
  - destruct O as [[r O] | [m O]]; discriminate.
  - split; [reflexivity|]. right. split; [eauto | reflexivity].
  - destruct O as [[r O] | [m O]]; discriminate.
Qed.

Lemma info_quiet_witness :
  stdout (trace (snd (transactioninfo.transactionInfoCmd (sample_client true)
                        sample_info_env (flags_for "0x1234" true)
                        (info_flags true true) initial))) = [] /\
  exit_status (fst (transactioninfo.transactionInfoCmd (sample_client true)
                      sample_info_env (flags_for "0x1234" true)
                      (info_flags true true) initial)) = Some 0.
Proof.
  destruct (info_quiet (sample_client true) sample_info_env (flags_for "0x1234" true)
              (info_flags true true) initial eq_refl) as [O [[_ X] | [[m X] _]]].
  - split; [exact O | exact X].
  - discriminate X.
Defined.

(** ** The report *)

Lemma bind_assoc {A B C} (m : M A) (k1 : A -> M B) (k2 : B -> M C) (s : State) :
  bind (bind m k1) k2 s = bind m (fun a => bind (k1 a) k2) s.
Proof. unfold bind. now destruct (m s) as [[a|code|msg|msg] s1]. Qed.

Lemma emits_first {A} (P : Event -> Prop) (e0 : Event) (k : M A) (s : State) :
  emits_only P k ->
  exists rest,
    trace (snd (bind (emit e0) (fun _ => k) s)) = (trace s ++ e0 :: rest)%list /\
    Forall P rest.
Proof.
  intros H. unfold bind. rewrite emit_record.
  destruct (H (record s [e0])) as (rest & T & F).
  exists rest. split; [|exact F].
  rewrite T. simpl. now rewrite <- app_assoc.
Qed.

Lemma print_Topics_emits (c : cmd.Client) (topics : list Hash) (j : nat) :
  emits_only print_event (transactioninfo.print_Topics c topics j).
Proof.
  revert j. induction topics as [|topic rest IH]; intros j; simpl; emits. apply IH.
Qed.

Lemma print_Data_from_emits (fuel : nat) (data : transactioninfo.Slice) (j : nat) :
  emits_only print_event (transactioninfo.print_Data_from fuel data j).
Proof.
  revert j. induction fuel as [|fuel IH]; intros j; simpl; emits. apply IH.
Qed.

Lemma print_Logs_emits (c : cmd.Client) (e : transactioninfo.Env)
    (signatures : list string) (logs : list transactioninfo.Log) (i : nat) :
  emits_only print_event (transactioninfo.print_Logs c e signatures logs i).
Proof.
  revert i. induction logs as [|log rest IH]; intros i; simpl; emits.
  - unfold transactioninfo.print_Log. emits.
    + apply print_Topics_emits.
    + unfold transactioninfo.print_Data. apply print_Data_from_emits.
  - apply IH.
Qed.

(** X18: a raw transaction given to "transaction info" is not fetched
    from the node (no [TransactionByHash] call is made) and is always
    reported as mined: in the default output mode the first line printed
    is "Type: Mined transaction" (or "Mined contract creation"), and the
    run adds nothing to the trace but printed lines. *)
Theorem info_raw_input_reported_mined (c : cmd.Client) (e : transactioninfo.Env)
    (f : cmd.Flags) (g : transactioninfo.InfoFlags) (s : State)
    (data : list byte) (tx : Transaction) :
  cmd.quiet f = false ->
  transactioninfo.transactionInfoRaw g = false ->
  transactioninfo.transactionInfoJSON g = false ->
  (66 < String.length (cmd.transactionStr f))%nat ->
  hex_DecodeString (strings_TrimPrefix (cmd.transactionStr f) "0x") = inr data ->
  transactioninfo.DecodeRLP e data = inr tx ->
  exists rest,
    trace (snd (transactioninfo.transactionInfoCmd c e f g s))
    = (trace s ++ Printf (mined_line tx) :: rest)%list /\
    Forall print_event rest.
Proof.
  intros Hq Hraw Hjson Hlen Hhex Hrlp.
  unfold transactioninfo.transactionInfoCmd.
  unfold bind at 1.
  rewrite (transactionInfoCmd_lookup_raw c e f s data tx Hlen Hhex Hrlp).
  rewrite Hq, Hraw, Hjson. unfold bind at 1. simpl. unfold bind at 1. simpl.
  unfold bind at 1. simpl.
  unfold transactioninfo.transactionInfoCmd_report.
  rewrite !bind_assoc. unfold mined_line.
  destruct (tx_To tx) as [to|]; apply emits_first; emits;
    apply print_Logs_emits.
Qed.

Lemma info_raw_input_reported_mined_witness :
  exists rest,
    trace (snd (transactioninfo.transactionInfoCmd (sample_client true) sample_info_env
                  (flags_for ("0x" ++ hex_EncodeToString
                                        (cmd.EncodeRLP (sample_client true) long_tx))
                     false)
                  (info_flags false false) initial))
    = ([] ++ Printf (mined_line long_tx) :: rest)%list /\
    Forall print_event rest.
Proof.
  apply (info_raw_input_reported_mined (sample_client true) sample_info_env _ _ initial
           (cmd.EncodeRLP (sample_client true) long_tx) long_tx);
    try reflexivity.
  vm_compute. lia.
Defined.

(** ** The words of the data of a log *)

Lemma slice_word (data : transactioninfo.Slice) (j : nat) :
  ((j + 1) * 32 <= transactioninfo.cap data)%nat ->
  transactioninfo.slice data (j * 32) ((j + 1) * 32)
  = Some (firstn 32 (skipn (j * 32)
                       (transactioninfo.elems data ++ transactioninfo.spare data))).
Proof.
  intros H. unfold transactioninfo.slice.
  assert (E1 : (j * 32 <=? (j + 1) * 32)%nat = true) by (apply Nat.leb_le; lia).
  assert (E2 : ((j + 1) * 32 <=? transactioninfo.cap data)%nat = true)
    by now apply Nat.leb_le.
  rewrite E1, E2. simpl andb. cbv iota.
  replace ((j + 1) * 32 - j * 32)%nat with 32%nat by lia. reflexivity.
Qed.

Lemma slice_out_of_range (data : transactioninfo.Slice) (j : nat) :
  (transactioninfo.cap data < (j + 1) * 32)%nat ->
  transactioninfo.slice data (j * 32) ((j + 1) * 32) = None.
Proof.
  intros H. unfold transactioninfo.slice.
  assert (E2 : ((j + 1) * 32 <=? transactioninfo.cap data)%nat = false)
    by (apply Nat.leb_gt; lia).
  rewrite E2. now rewrite andb_false_r.
Qed.

(** The loop over [m] words that all lie within the capacity. *)
Lemma print_Data_from_words (data : transactioninfo.Slice) (m fuel j : nat) (s : State) :
  (forall i, (i < m <-> i * 32 < transactioninfo.len data)%nat) ->
  (m * 32 <= transactioninfo.cap data)%nat ->
  (j <= m)%nat -> (m - j <= fuel)%nat ->
  transactioninfo.print_Data_from fuel data j s
  = (Ret tt,
     record s (map (fun i => Printf (word_line (transactioninfo.elems data
                                                 ++ transactioninfo.spare data) i))
                 (seq j (m - j)))).
Proof.
  intros Hm Hcap. revert j s.
  induction fuel as [|fuel IH]; intros j s Hj Hf.
  - replace (m - j)%nat with 0%nat by lia. simpl. now rewrite record_nil.
  - simpl. destruct (Nat.ltb_spec (j * 32) (transactioninfo.len data)) as [Hlt|Hge].
    + apply Hm in Hlt.
      rewrite slice_word by lia.
      unfold bind. rewrite emit_record.
      rewrite IH by lia. rewrite record_record.
      replace (m - j)%nat with (S (m - S j)) by lia. reflexivity.
    + assert (j = m).
      { destruct (Nat.eq_dec j m) as [E|E]; [exact E|].
        assert (L : (j < m)%nat) by lia. apply Hm in L. lia. }
      subst j. rewrite Nat.sub_diag. simpl. now rewrite record_nil.
Qed.

(** The loop panics at word [q] when the words before it lie within the
    capacity and it does not. *)
Lemma print_Data_from_panics (data : transactioninfo.Slice) (q fuel j : nat) (s : State) :
  (q * 32 < transactioninfo.len data)%nat ->
  (transactioninfo.cap data < (q + 1) * 32)%nat ->
  (j <= q)%nat -> (q - j < fuel)%nat ->
  fst (transactioninfo.print_Data_from fuel data j s)
  = Crash "slice bounds out of range".
Proof.
  intros Hq Hcap. revert j s.
  induction fuel as [|fuel IH]; intros j s Hj Hf; [lia|].
  simpl.
  assert (E : (j * 32 <? transactioninfo.len data)%nat = true)
    by (apply Nat.ltb_lt; nia).
  rewrite E.
  destruct (Nat.eq_dec j q) as [->|Hne].
  - now rewrite slice_out_of_range.
  - assert (C : (transactioninfo.len data <= transactioninfo.cap data)%nat)
      by (unfold transactioninfo.len, transactioninfo.cap; lia).
    rewrite slice_word by lia.
    unfold bind. rewrite emit_record. apply IH; lia.
Qed.

Lemma words_concat (n : nat) (bytes : list byte) :
  List.length bytes = (n * 32)%nat ->
  List.concat (map (fun j => firstn 32 (skipn (j * 32) bytes)) (seq 0 n)) = bytes.
Proof.
  revert bytes. induction n as [|n IH]; intros bytes H.
  - simpl. now destruct bytes.
  - change (seq 0 (S n)) with (0%nat :: seq 1 n).
    rewrite <- seq_shift. cbn [map List.concat]. rewrite map_map.
    change (skipn (0 * 32) bytes) with bytes.
    transitivity (firstn 32 bytes ++ skipn 32 bytes)%list; [|apply firstn_skipn].
    f_equal.
    etransitivity; [|apply (IH (skipn 32 bytes)); rewrite length_skipn; lia].
    f_equal. apply map_ext. intros j.
    rewrite skipn_skipn. do 2 f_equal. lia.
Qed.

Lemma word_within (elems spare : list byte) (j : nat) :
  ((j + 1) * 32 <= List.length elems)%nat ->
  firstn 32 (skipn (j * 32) (elems ++ spare)) = firstn 32 (skipn (j * 32) elems).
Proof.
  intros H. rewrite skipn_app, firstn_app.
  replace (32 - List.length (skipn (j * 32) elems))%nat with 0%nat
    by (rewrite length_skipn; lia).
  simpl. now rewrite app_nil_r.
Qed.

(** X19: the verbose report prints log data in 32-byte words read with a
    slice expression.  When the length of the data is a multiple of 32,
    the loop prints one line per word, the words make up exactly the
    data, and the backing array beyond the length is not read.
    Otherwise the last word is read past the length of the data: when
    the capacity does not reach the end of that word the command
    panics, and when it does, the line printed for it is filled up with
    bytes of the backing array that are not part of the data. *)
Theorem print_Data_words (data : transactioninfo.Slice) (s : State) :
  (forall n,
     transactioninfo.len data = (n * 32)%nat ->
     transactioninfo.print_Data data s
     = (Ret tt,
        record s (map (fun j => Printf (word_line (transactioninfo.elems data) j))
                    (seq 0 n))) /\
     List.concat (map (fun j => firstn 32 (skipn (j * 32) (transactioninfo.elems data)))
               (seq 0 n))
     = transactioninfo.elems data) /\
  (forall q r,
     transactioninfo.len data = (q * 32 + r)%nat -> (0 < r < 32)%nat ->
     (List.length (transactioninfo.spare data) < 32 - r)%nat ->
     fst (transactioninfo.print_Data data s) = Crash "slice bounds out of range") /\
  (forall q r,
     transactioninfo.len data = (q * 32 + r)%nat -> (0 < r < 32)%nat ->
     (32 - r <= List.length (transactioninfo.spare data))%nat ->
     transactioninfo.print_Data data s
     = (Ret tt,
        record s (map (fun j => Printf (word_line (transactioninfo.elems data
                                                    ++ transactioninfo.spare data) j))
                    (seq 0 (q + 1)))) /\
     firstn 32 (skipn (q * 32) (transactioninfo.elems data
                                ++ transactioninfo.spare data))
     = (skipn (q * 32) (transactioninfo.elems data)
        ++ firstn (32 - r) (transactioninfo.spare data))%list).
Proof.
  unfold transactioninfo.print_Data. split; [|split].
  - intros n Hn. split.
    + rewrite (print_Data_from_words data n)
        by (try intros i; unfold transactioninfo.cap, transactioninfo.len in *; lia).
      rewrite Nat.sub_0_r. f_equal. f_equal. apply map_ext_in.
      intros j Hj. apply in_seq in Hj. unfold word_line.
      rewrite word_within; [reflexivity|].
      unfold transactioninfo.len in Hn. lia.
    + apply words_concat. exact Hn.
  - intros q r Hlen Hr Hspare.
    apply (print_Data_from_panics data q);
      unfold transactioninfo.cap, transactioninfo.len in *; lia.
  - intros q r Hlen Hr Hspare. split.
    + rewrite (print_Data_from_words data (q + 1))
        by (try intros i; unfold transactioninfo.cap, transactioninfo.len in *; lia).
      now rewrite Nat.sub_0_r.
    + unfold transactioninfo.len in Hlen.
      rewrite skipn_app, firstn_app, length_skipn.
      replace (q * 32 - List.length (transactioninfo.elems data))%nat with 0%nat by lia.
      replace (List.length (transactioninfo.elems data) - q * 32)%nat with r by lia.
      simpl skipn. f_equal. apply firstn_all2. rewrite length_skipn. lia.
Qed.

Lemma print_Data_words_witness :
  fst (transactioninfo.print_Data ragged_data initial)
    = Crash "slice bounds out of range" /\
  stdout (trace (snd (transactioninfo.print_Data aligned_data initial)))
    = [word_line (repeat xaa 32 ++ repeat xcc 32) 0;
       word_line (repeat xaa 32 ++ repeat xcc 32) 1] /\
  stdout (trace (snd (transactioninfo.print_Data roomy_data initial)))
    = [word_line (repeat xaa 40 ++ repeat xbb 30) 0;
       word_line (repeat xaa 40 ++ repeat xbb 30) 1].
Proof.
  split; [|split].
  - apply (proj1 (proj2 (print_Data_words ragged_data initial)) 1%nat 8%nat);
      [reflexivity | lia | simpl; lia].
  - destruct (proj1 (print_Data_words aligned_data initial) 2%nat eq_refl) as [E _].
    rewrite E. reflexivity.
  - destruct (proj2 (proj2 (print_Data_words roomy_data initial)) 1%nat 8%nat
                eq_refl ltac:(lia) ltac:(simpl; lia)) as [E _].
    rewrite E. reflexivity.
Defined.

(** * Properties of ensaddressset.go *)

Lemma differs_true (a b : Address) : ensaddressset.differs a b = true <-> a <> b.
Proof.
  unfold ensaddressset.differs. rewrite negb_true_iff.
  split.
  - intros H E. apply Address_eqb_eq in E. congruence.
  - intros H. destruct (Address_eqb a b) eqn:E; [|reflexivity].
    apply Address_eqb_eq in E. contradiction.
Qed.

Lemma differs_same (a : Address) : ensaddressset.differs a a = false.
Proof. unfold ensaddressset.differs. now rewrite Address_eqb_refl. Qed.

(** X20: "ens address set" refuses, in this order and before anything is
    sent: the offline flag; a missing --domain; a domain whose owner is
    the zero address; and an address that resolves to the zero address,
    which is reported with the hint to use "ens address clear" even when
    the resolution itself failed, because that check runs before the
    error of the resolution is looked at. *)
Theorem ens_set_refusals (c : cmd.Client) (e : ensaddressset.Env) (f : cmd.Flags)
    (g : ensaddressset.SetFlags) (s : State) :
  (cmd.offline f = true ->
   ensaddressset.ensAddressSetCmd c e f g s
   = (Fatal "Offline mode not supported at current with this command", s)) /\
  (cmd.offline f = false -> ensaddressset.ensDomain g = "" ->
   ensaddressset.ensAddressSetCmd c e f g s = (Fatal "--domain is required", s)) /\
  (forall registry,
     cmd.offline f = false -> ensaddressset.ensDomain g <> "" ->
     ensaddressset.NewRegistry e = inr registry ->
     ensaddressset.Owner e registry (ensaddressset.ensDomain g)
       = inr ensaddressset.UnknownAddress ->
     ensaddressset.ensAddressSetCmd c e f g s
     = (Fatal ("owner of " ++ ensaddressset.ensDomain g ++ " is not set"), s)) /\
  (forall registry owner err,
     cmd.offline f = false -> ensaddressset.ensDomain g <> "" ->
     ensaddressset.NewRegistry e = inr registry ->
     ensaddressset.Owner e registry (ensaddressset.ensDomain g) = inr owner ->
     owner <> ensaddressset.UnknownAddress ->
     ensaddressset.Resolve e (ensaddressset.ensAddressSetAddressStr g)
       = (ensaddressset.UnknownAddress, err) ->
     ensaddressset.ensAddressSetCmd c e f g s
     = (Fatal ensaddressset.clear_hint,
        record s [outputIf_call (cmd.verbose f)
                    ("Domain is owned by " ++ ensaddressset.ens_Format e owner)])).
Proof.
  unfold ensaddressset.ensAddressSetCmd, ensaddressset.ensAddressSetCmd_send.
  split; [|split; [|split]].
  - intros Ho. unfold bind. now rewrite Ho.
  - intros Ho Hd. unfold bind. now rewrite Ho, Hd.
  - intros registry Ho Hd Hr Hown. apply String.eqb_neq in Hd.
    unfold bind. rewrite Ho, Hd, Hr.
    cbn -[ensaddressset.differs ensaddressset.UnknownAddress append].
    rewrite Hown.
    cbn -[ensaddressset.differs ensaddressset.UnknownAddress append].
    now rewrite differs_same.
  - intros registry owner err Ho Hd Hr Hown Hne Hres. apply String.eqb_neq in Hd.
    apply differs_true in Hne.
    unfold bind. rewrite Ho, Hd, Hr.
    cbn -[ensaddressset.differs ensaddressset.UnknownAddress append].
    rewrite Hown.
    cbn -[ensaddressset.differs ensaddressset.UnknownAddress append].
    rewrite Hne.
    cbn -[ensaddressset.differs ensaddressset.UnknownAddress append].
    rewrite Hres.
    cbn -[ensaddressset.differs ensaddressset.UnknownAddress append].
    now rewrite differs_same.
Qed.

Lemma ens_set_refusals_witness :
  ensaddressset.ensAddressSetCmd (sample_client true)
    (sample_ens_env ensaddressset.UnknownAddress (Some "unregistered name"))
    (sample_flags false false "") sample_set_flags initial
  = (Fatal ensaddressset.clear_hint,
     record initial
       [outputIf_call false
          "Domain is owned by 0xa1a1a1a1a1a1a1a1a1a1a1a1a1a1a1a1a1a1a1a1"]).
Proof.
  apply (proj2 (proj2 (proj2 (ens_set_refusals (sample_client true)
           (sample_ens_env ensaddressset.UnknownAddress (Some "unregistered name"))
           (sample_flags false false "") sample_set_flags initial)))
           {| ensaddressset.registry_ContractAddr := repeat x0e 20 |} alice
           (Some "unregistered name"));
    (reflexivity || discriminate).
Defined.



Lemma output_no_handover (events : list Event) tx fields wait :
  Forall output_event events ->
  ~ In (handleSubmittedTransaction_call tx fields wait) events.
Proof.
  intros F Hin. rewrite Forall_forall in F. now apply F in Hin.
Qed.



(** * The data directory *)

Lemma isNonEmptyDir_has_entry (h : Host) (dir : string) :
  cli.isNonEmptyDir h dir = has_entry h dir.
Proof.
  unfold cli.isNonEmptyDir, has_entry.
  destruct (readdir h dir) as [[|entry entries]|]; reflexivity.
Qed.

Lemma plain_dir_nonempty (goos dir : string) :
  plain_dir goos dir = true -> dir <> "".
Proof.
  intros H E. subst dir. simpl in H. discriminate H.
Qed.

(** X22: for a home directory that [filepath.Join] extends by plain
    concatenation, the data directory is [<home>/Library/Ethereum] on
    macOS and [<home>/.ethereum] on every system other than macOS and
    Windows.  On Windows, with LOCALAPPDATA naming such a directory too,
    it is the legacy [<home>\AppData\Roaming\Ethereum] if that directory
    can be opened and has at least one entry, and
    [<LOCALAPPDATA>\Ethereum] otherwise. *)
Theorem DefaultDataDir_layout (h : Host) :
  plain_dir (GOOS h) (cli.homeDir h) = true ->
  (GOOS h = "darwin" ->
   cli.DefaultDataDir h = Ok (cli.homeDir h ++ "/Library/Ethereum")) /\
  (GOOS h <> "darwin" -> GOOS h <> "windows" ->
   cli.DefaultDataDir h = Ok (cli.homeDir h ++ "/.ethereum")) /\
  (GOOS h = "windows" -> plain_dir (GOOS h) (env_LOCALAPPDATA h) = true ->
   cli.DefaultDataDir h =
   Ok (if has_entry h (cli.homeDir h ++ "\AppData\Roaming\Ethereum")
       then cli.homeDir h ++ "\AppData\Roaming\Ethereum"
       else env_LOCALAPPDATA h ++ "\Ethereum")).
Proof.
  intros Hp. pose proof (plain_dir_nonempty _ _ Hp) as Hh.
  pose proof Hh as Hb. apply String.eqb_neq in Hb.
  unfold cli.DefaultDataDir. rewrite Hb. simpl negb. cbv iota.
  split; [|split].
  - intros E. rewrite E. simpl. unfold filepath_Join. simpl. now rewrite Hb.
  - intros D W. apply String.eqb_neq in D, W. rewrite D, W.
    unfold filepath_Join. simpl. rewrite Hb. simpl.
    unfold Separator. now rewrite W.
  - intros E Lp. pose proof (plain_dir_nonempty _ _ Lp) as L. rewrite E. simpl.
    unfold cli.windowsAppData. pose proof L as Lb. apply String.eqb_neq in Lb.
    rewrite Lb. simpl. rewrite isNonEmptyDir_has_entry.
    unfold filepath_Join. simpl. rewrite Hb, Lb. simpl.
    destruct (has_entry h _); reflexivity.
Qed.

Lemma DefaultDataDir_layout_witness :
  cli.DefaultDataDir linux_host = Ok "/home/alice/.ethereum" /\
  cli.DefaultDataDir windows_host_appdata
  = Ok "C:\Users\alice\AppData\Local\Ethereum".
Proof.
  split.
  - apply (DefaultDataDir_layout linux_host); [reflexivity | discriminate..].
  - apply (proj2 (proj2 (DefaultDataDir_layout windows_host_appdata eq_refl))
             eq_refl).
    reflexivity.
Defined.
